(** * Dataset assembly pipeline of the [neural] package

    A shallow embedding of [neural/data/alpaca.py] (class
    [AlpacaDataFetcher]) and of the sibling validator in
    [neural/client/alpaca.py] (class [AlpacaDataClient]), together with
    the properties of symbol validation, session alignment, the density
    statistic and the dataset store.

    Conventions.
    - Python dictionaries are [gmap]s, Python sets are [gset]s or
      duplicate-free lists, and lists are lists.
    - Every [raise] site of the source is one constructor of [Error]; the
      source raises [ValueError] with distinct messages, and the
      constructors carry the names the specification gives to the
      messages.
    - A built-in exception that escapes from an attribute read or from a
      call into the client is carried by [PyError]; an attribute that an
      object may lack is an [attribute], and reading an absent one
      raises [AttributeError].
    - Timestamps are integers (seconds since the epoch, UTC).
    - Numeric payloads are carried through the pipeline unchanged, so the
      development is parametric in their type. *)

From Stdlib Require Import ZArith QArith String List Lia Sorted.
From stdpp Require Import gmap strings list fin_maps.

Local Open Scope string_scope.
Local Open Scope list_scope.
Local Open Scope Z_scope.

(** ** Catalog data: [alpaca.trading.enums] and the asset model *)

Inductive AssetClass : Type := US_EQUITY | CRYPTO.
Inductive AssetStatus : Type := ACTIVE | INACTIVE.
Inductive DatasetType : Type := BAR | QUOTE | TRADE.

#[global] Instance AssetClass_eq_dec : EqDecision AssetClass.
Proof. solve_decision. Defined.
#[global] Instance AssetStatus_eq_dec : EqDecision AssetStatus.
Proof. solve_decision. Defined.
#[global] Instance DatasetType_eq_dec : EqDecision DatasetType.
Proof. solve_decision. Defined.

(** The fields of an asset that the validators read. *)
Record Asset : Type := {
  asset_class : AssetClass;
  tradable : bool;
  status : AssetStatus;
  fractionable : bool;
  easy_to_borrow : bool
}.

(** The symbol dictionary of the client ([symbol -> asset]). *)
Abbreviation Catalog := (gmap string Asset).

(** ** Python outcomes *)

Module Py.

(** The built-in exceptions that the client modules raise or let
    escape. *)
Inductive exn : Type :=
| ValueError (message : string)
| KeyError (key : string)
| TypeError (message : string)
| AttributeError (message : string).

Inductive outcome (A : Type) : Type :=
| Return (a : A)
| Raised (e : exn).
Arguments Return {A} a.
Arguments Raised {A} e.

Definition bind {A B : Type} (m : outcome A) (k : A -> outcome B) : outcome B :=
  match m with
  | Return a => k a
  | Raised e => Raised e
  end.

(** [d[k]] on a dictionary; [show] names the key that the [KeyError]
    carries. *)
Definition getitem {K A : Type} `{Countable K} (show : K -> string)
    (d : gmap K A) (k : K) : outcome A :=
  match d !! k with
  | Some v => Return v
  | None => Raised (KeyError (show k))
  end.

(** [x[k]] where [x] is a dictionary with string keys or [None]. *)
Definition subscript {A : Type} (x : option (gmap string A)) (k : string) : outcome A :=
  match x with
  | None => Raised (TypeError "'NoneType' object is not subscriptable")
  | Some d => getitem id d k
  end.

(** A dictionary display [{k1: v1, k2: v2, ...}]: the entries are
    stored from left to right, so the last entry of a key stays. *)
Definition dict_display {K A : Type} `{Countable K} (entries : list (K * A))
  : gmap K A :=
  fold_left (fun d entry => <[fst entry := snd entry]> d) entries ∅.

End Py.

Notation "'let?' x ':=' m 'in' k" := (Py.bind m (fun x => k))
  (at level 10, x name, m at level 100, k at level 200).

(** ** Exceptions and log output *)

Inductive Error : Type :=
| EmptyInputError
    (* 'symbols argument cannot be an empty sequence.' *)
| DuplicateSymbolError (duplicate_symbols : list string)
    (* 'Symbols ... have duplicate values.' *)
| UnknownSymbolError (symbol : string)
    (* 'Symbol ... is not a known symbol.' *)
| NotTradableError (symbol : string)
    (* 'Symbol ... is not a tradable symbol.' *)
| InactiveSymbolError (symbol : string)
    (* 'Symbol ... is not an active symbol.' *)
| MixedAssetClassError
    (* 'Symbols are not of the same asset class.' *)
| InvalidResolutionError
    (* 'Accepted resolutions: ...' *)
| EmptyScheduleError
    (* 'No market hours in date range provided.' *)
| MissingSymbolDataError (missing_symbols : gset string) (market_open market_close : Z)
    (* 'No data for symbols ... in ..., ... time range.' *)
| IncompatibleAppendError
    (* raised by the dataset store *)
| KeyError (key : string)
    (* dictionary subscript on an absent key; 'No data in requested range' *)
| AttributeError (symbol : string)
    (* attribute access on None *)
| InvalidPathError (file_path : string)
    (* raised by validate_path *)
| PyError (e : Py.exn).
    (* a built-in exception that escapes from an attribute read or from a
       call into the client *)

Inductive result (A : Type) : Type :=
| Ok (a : A)
| Raise (e : Error).
Arguments Ok {A} a.
Arguments Raise {A} e.

(** [logger.warning] lines of the validators. *)
Inductive Warning : Type :=
| NotFractionable (symbol : string)
| NotEasyToBorrow (symbol : string).

(** ** Symbol validation *)

(** The two warnings of one loop iteration, in source order. *)
Definition symbol_warnings (symbol : string) (symbol_data : Asset) : list Warning :=
  (if fractionable symbol_data then [] else [NotFractionable symbol]) ++
  (if easy_to_borrow symbol_data then [] else [NotEasyToBorrow symbol]).

(** [symbols.count(symbol)] *)
Definition count (symbols : list string) (symbol : string) : nat :=
  count_occ string_dec symbols symbol.

(** [[symbol for symbol in set(symbols) if symbols.count(symbol) > 1]].
    The iteration order of a Python set is unspecified; only emptiness
    of the list is tested. *)
Definition duplicate_symbols (symbols : list string) : list string :=
  List.filter (fun symbol => (1 <? count symbols symbol)%nat) (remove_dups symbols).

(** An attribute of an object: reading one that the object lacks
    raises [AttributeError]. *)
Inductive attribute (A : Type) : Type :=
| Absent
| Present (a : A).
Arguments Absent {A}.
Arguments Present {A} a.

(** [self.client._AlpacaClient__symbols.get(symbol)]: the attribute is
    read, then the dictionary; [.get] never raises. *)
Definition private_get (_AlpacaClient__symbols : attribute Catalog) (symbol : string)
  : result (option Asset) :=
  match _AlpacaClient__symbols with
  | Absent =>
      Raise (PyError (Py.AttributeError
        "'AlpacaClient' object has no attribute '_AlpacaClient__symbols'"))
  | Present d => Ok (d !! symbol)
  end.

Section Validator.

(** How the symbol dictionary is read: [private_get] on the client's
    attribute. *)
Variable get : string -> result (option Asset).

(** [for symbol in symbols: ...] of the data fetcher, with its three
    [raise] sites and two warnings. *)
Fixpoint check_symbols (symbols : list string) : list Warning * result unit :=
  match symbols with
  | [] => ([], Ok tt)
  | symbol :: rest =>
      match get symbol with
      | Raise e => ([], Raise e)
      | Ok None => ([], Raise (UnknownSymbolError symbol))
      | Ok (Some symbol_data) =>
          if negb (tradable symbol_data) then
            ([], Raise (NotTradableError symbol))
          else if negb (bool_decide (status symbol_data = ACTIVE)) then
            ([], Raise (InactiveSymbolError symbol))
          else
            let '(warnings, r) := check_symbols rest in
            (symbol_warnings symbol symbol_data ++ warnings, r)
      end
  end.

(** [set(....get(symbol).asset_class for symbol in symbols)] as a
    duplicate-free list; [.asset_class] on [None] raises. *)
Fixpoint asset_class_list (symbols : list string) : result (list AssetClass) :=
  match symbols with
  | [] => Ok []
  | symbol :: rest =>
      match get symbol with
      | Raise e => Raise e
      | Ok None => Raise (AttributeError symbol)
      | Ok (Some symbol_data) =>
          match asset_class_list rest with
          | Ok classes => Ok (asset_class symbol_data :: classes)
          | Raise e => Raise e
          end
      end
  end.

Definition asset_classes (symbols : list string) : result (list AssetClass) :=
  match asset_class_list symbols with
  | Ok classes => Ok (remove_dups classes)
  | Raise e => Raise e
  end.

(** The end of both validators: the set of asset classes, the test of
    its length, and [asset_classes.pop()]. *)
Definition common_asset_class (symbols : list string) : result AssetClass :=
  match asset_classes symbols with
  | Raise e => Raise e
  | Ok [asset_class] => Ok asset_class
  | Ok _ => Raise MixedAssetClassError
  end.

End Validator.

#[global] Instance AssetClass_countable : Countable AssetClass.
Proof.
  refine (inj_countable'
            (fun c => match c with US_EQUITY => 0 | CRYPTO => 1 end)%nat
            (fun n => match n with 0 => US_EQUITY | _ => CRYPTO end)%nat _).
  now intros [].
Defined.

#[global] Instance DatasetType_countable : Countable DatasetType.
Proof.
  refine (inj_countable'
            (fun d => match d with BAR => 0 | QUOTE => 1 | TRADE => 2 end)%nat
            (fun n => match n with 0 => BAR | 1 => QUOTE | _ => TRADE end)%nat _).
  now intros [].
Defined.

(** The members by name, for the key a [KeyError] carries. *)
Definition AssetClass_name (c : AssetClass) : string :=
  match c with US_EQUITY => "AssetClass.US_EQUITY" | CRYPTO => "AssetClass.CRYPTO" end.

Definition DatasetType_name (d : DatasetType) : string :=
  match d with
  | BAR => "DatasetType.BAR"
  | QUOTE => "DatasetType.QUOTE"
  | TRADE => "DatasetType.TRADE"
  end.

(** ** The SDK as the client modules see it *)

(** The request classes of [alpaca.data.requests]. *)
Inductive RequestClass : Type :=
| CryptoBarsRequest
| CryptoQuotesRequest
| CryptoTradesRequest
| StockBarsRequest
| StockQuotesRequest
| StockTradesRequest.

(** What a request asks for, and of which venue. *)
Definition request_kind (request : RequestClass) : DatasetType :=
  match request with
  | CryptoBarsRequest | StockBarsRequest => BAR
  | CryptoQuotesRequest | StockQuotesRequest => QUOTE
  | CryptoTradesRequest | StockTradesRequest => TRADE
  end.

Definition request_venue (request : RequestClass) : AssetClass :=
  match request with
  | CryptoBarsRequest | CryptoQuotesRequest | CryptoTradesRequest => CRYPTO
  | StockBarsRequest | StockQuotesRequest | StockTradesRequest => US_EQUITY
  end.

(** The method of the historical data clients that takes the request. *)
Definition request_method (request : RequestClass) : string :=
  match request with
  | CryptoBarsRequest => "get_crypto_bars"
  | CryptoQuotesRequest => "get_crypto_quotes"
  | CryptoTradesRequest => "get_crypto_trades"
  | StockBarsRequest => "get_stock_bars"
  | StockQuotesRequest => "get_stock_quotes"
  | StockTradesRequest => "get_stock_trades"
  end.

(** An SDK client object: its class and the names of its attributes. *)
Record SdkClient : Type := {
  sdk_class : string;
  sdk_attributes : gset string
}.

(** A bound method of an SDK client. *)
Definition Downloader : Type := SdkClient * string.

(** An asset of the SDK: its symbol and the fields the validators read. *)
Record SdkAsset : Type := {
  asset_symbol : string;
  asset_info : Asset
}.

(** The calls a client makes to the trading API. *)
Inductive ApiCall : Type :=
| GetAllAssets
| GetAccount.

(** The lines [_connect] logs. *)
Inductive ConnectLog (Account : Type) : Type :=
| AccountSetupSuccessful
| AccountStatusInfo (account : Account)
| AccountStatusWarning (account : Account)
| AccountSetupFailed (e : Py.exn).
Arguments AccountSetupSuccessful {Account}.
Arguments AccountStatusInfo {Account} account.
Arguments AccountStatusWarning {Account} account.
Arguments AccountSetupFailed {Account} e.

(** The nested helper of both [get_downloader_and_request]:
    [hasattr], then [getattr]. *)
Definition safe_method_call (client : SdkClient) (method_name : string)
  : Py.outcome Downloader :=
  if bool_decide (method_name ∈ sdk_attributes client) then
    Py.Return (client, method_name)
  else
    Py.Raised (Py.AttributeError
                 ("Client does not have method '" ++ method_name ++ "'")).

(** ** The client object as the data modules read it *)

Module Client.

(** What the data fetcher reads of [self.client]: the value of the
    attribute [clients] ([None] before [_connect]) and the attribute
    [_AlpacaClient__symbols], which the object has or lacks. *)
Record t : Type := {
  clients : option (gmap string SdkClient);
  _AlpacaClient__symbols : attribute Catalog
}.

End Client.

(** ** The client ([AlpacaClient]) *)

Module AlpacaClient.

Section Instance.

(** The account model of the SDK and the frame of [objects_to_df] are
    not inspected by the client. *)
Context {Account DataFrame : Type}.

(** The attributes [__init__] sets. *)
Record t : Type := {
  key : option string;
  secret : option string;
  clients : option (gmap string SdkClient);
  account : option Account;
  _assets : option (list SdkAsset);
  _symbols : option (gmap string SdkAsset);
  _asset_classes : option (list AssetClass);
  _exchanges : option (list string)
}.

(** [AlpacaClient.__init__]; [API_KEY] and [API_SECRET] are the
    constants of [neural.common.constants]. *)
Definition __init__ (API_KEY API_SECRET : option string) (key_ secret_ : option string)
  : t :=
  {| key := match key_ with Some k => Some k | None => API_KEY end;
     secret := match secret_ with Some s => Some s | None => API_SECRET end;
     clients := None;
     account := None;
     _assets := None;
     _symbols := None;
     _asset_classes := None;
     _exchanges := None |}.

Definition set_clients (self : t) (cs : gmap string SdkClient) : t :=
  {| key := key self; secret := secret self; clients := Some cs;
     account := account self; _assets := _assets self; _symbols := _symbols self;
     _asset_classes := _asset_classes self; _exchanges := _exchanges self |}.

Definition set_account (self : t) (a : Account) : t :=
  {| key := key self; secret := secret self; clients := clients self;
     account := Some a; _assets := _assets self; _symbols := _symbols self;
     _asset_classes := _asset_classes self; _exchanges := _exchanges self |}.

Definition set_assets (self : t) (assets : list SdkAsset) : t :=
  {| key := key self; secret := secret self; clients := clients self;
     account := account self; _assets := Some assets; _symbols := _symbols self;
     _asset_classes := _asset_classes self; _exchanges := _exchanges self |}.

Definition set_symbols (self : t) (symbols : gmap string SdkAsset) : t :=
  {| key := key self; secret := secret self; clients := clients self;
     account := account self; _assets := _assets self; _symbols := Some symbols;
     _asset_classes := _asset_classes self; _exchanges := _exchanges self |}.

(** The SDK behind [_connect]: the three client constructors, which
    build their objects without a call to the API, the answer of
    [get_account] and the outcome of [self.check_connection()], a
    method the class does not define itself. *)
Record Sdk : Type := {
  CryptoHistoricalDataClient : string -> string -> SdkClient;
  StockHistoricalDataClient : string -> string -> SdkClient;
  TradingClient : string -> string -> SdkClient;
  get_account : Py.outcome Account;
  check_connection : t -> Py.outcome bool
}.

(** [AlpacaClient._connect]: the new state, the calls made, the lines
    logged and the outcome. Whatever is raised inside the [try] is
    logged and swallowed. *)
Definition _connect (sdk : Sdk) (self : t)
  : t * list ApiCall * list (ConnectLog Account) * Py.outcome unit :=
  match key self, secret self with
  | Some k, Some s =>
      let self1 :=
        set_clients self
          (<["trading" := TradingClient sdk k s]>
             (<["stocks" := StockHistoricalDataClient sdk k s]>
                (<["crypto" := CryptoHistoricalDataClient sdk k s]> ∅))) in
      match get_account sdk with
      | Py.Raised e => (self1, [GetAccount], [AccountSetupFailed e], Py.Return tt)
      | Py.Return a =>
          let self2 := set_account self1 a in
          match check_connection sdk self2 with
          | Py.Raised e =>
              (self2, [GetAccount],
               [AccountSetupSuccessful; AccountSetupFailed e], Py.Return tt)
          | Py.Return true =>
              (self2, [GetAccount],
               [AccountSetupSuccessful; AccountStatusInfo a], Py.Return tt)
          | Py.Return false =>
              (self2, [GetAccount],
               [AccountSetupSuccessful; AccountStatusWarning a], Py.Return tt)
          end
      end
  | _, _ =>
      (self, [], [],
       Py.Raised (Py.ValueError "Key and secret are required for account login."))
  end.

(** The frame builder of [neural.tools.base]. *)
Variable objects_to_df : list SdkAsset -> DataFrame.

(** The property [AlpacaClient.assets]; [remote] is what
    [get_all_assets()] answers when it is called. *)
Definition assets (remote : Py.outcome (list SdkAsset)) (self : t)
  : t * list ApiCall * Py.outcome DataFrame :=
  match _assets self with
  | None =>
      match Py.subscript (clients self) "trading" with
      | Py.Raised e => (self, [], Py.Raised e)
      | Py.Return _ =>
          match remote with
          | Py.Raised e => (self, [GetAllAssets], Py.Raised e)
          | Py.Return fetched =>
              (set_assets self fetched, [GetAllAssets],
               Py.Return (objects_to_df fetched))
          end
      end
  | Some cached => (self, [], Py.Return (objects_to_df cached))
  end.

(** [{asset.symbol: asset for asset in self._assets}]: a later asset
    replaces an earlier one of the same symbol. *)
Definition symbol_dict (fetched : list SdkAsset) : gmap string SdkAsset :=
  fold_left (fun d asset => <[asset_symbol asset := asset]> d) fetched ∅.

(** The property [AlpacaClient.symbols]. *)
Definition symbols (remote : Py.outcome (list SdkAsset)) (self : t)
  : t * list ApiCall * Py.outcome (gmap string SdkAsset) :=
  let '(self1, calls, fetched) :=
    match _assets self with
    | None =>
        let '(self1, calls, r) := assets remote self in
        (self1, calls, match r with Py.Return _ => Py.Return tt | Py.Raised e => Py.Raised e end)
    | Some _ => (self, [], Py.Return tt)
    end in
  match fetched with
  | Py.Raised e => (self1, calls, Py.Raised e)
  | Py.Return _ =>
      match _symbols self1 with
      | Some d => (self1, calls, Py.Return d)
      | None =>
          match _assets self1 with
          | None =>
              (self1, calls,
               Py.Raised (Py.TypeError "'NoneType' object is not iterable"))
          | Some fetched_assets =>
              let d := symbol_dict fetched_assets in
              (set_symbols self1 d, calls, Py.Return d)
          end
      end
  end.

(** An instance of the class as a client object. [__init__] assigns
    [self._symbols], and no method of the class assigns
    [self.__symbols], the one spelling that would create the attribute
    [_AlpacaClient__symbols]: the instance lacks it in every state. *)
Definition as_client (self : t) : Client.t :=
  {| Client.clients := clients self;
     Client._AlpacaClient__symbols := Absent |}.

End Instance.

Arguments t : clear implicits.
Arguments Sdk : clear implicits.

End AlpacaClient.

Module AlpacaDataClient.

Section Validator.

Context {Account DataFrame : Type}.
Variable objects_to_df : list SdkAsset -> DataFrame.

(** What [get_all_assets()] answers when the property [symbols] of the
    client calls it. *)
Variable remote : Py.outcome (list SdkAsset).

(** [for symbol in symbols: ...] of the data client: every iteration
    evaluates the property [self.client.symbols] and subscripts the
    dictionary. The values of the dictionary are assets, so the test
    [symbol_data is None] never holds. *)
Fixpoint check_symbols (self : AlpacaClient.t Account) (symbols : list string)
  : AlpacaClient.t Account * list ApiCall * (list Warning * result unit) :=
  match symbols with
  | [] => (self, [], ([], Ok tt))
  | symbol :: rest =>
      let '(self1, calls, d) := AlpacaClient.symbols objects_to_df remote self in
      match let? d := d in Py.getitem id d symbol with
      | Py.Raised e => (self1, calls, ([], Raise (PyError e)))
      | Py.Return symbol_data =>
          if negb (tradable (asset_info symbol_data)) then
            (self1, calls, ([], Raise (NotTradableError symbol)))
          else if negb (bool_decide (status (asset_info symbol_data) = ACTIVE)) then
            (self1, calls, ([], Raise (InactiveSymbolError symbol)))
          else
            let '(self2, calls2, (warnings, r)) := check_symbols self1 rest in
            (self2, calls ++ calls2,
             (symbol_warnings symbol (asset_info symbol_data) ++ warnings, r))
      end
  end.

(** [AlpacaDataClient._validate_symbols]: the client after the call,
    the calls made to the trading API, the warnings logged and the
    outcome. *)
Definition _validate_symbols (self : AlpacaClient.t Account) (symbols : list string)
  : AlpacaClient.t Account * list ApiCall * (list Warning * result AssetClass) :=
  if (length symbols =? 0)%nat then (self, [], ([], Raise EmptyInputError))
  else
    match duplicate_symbols symbols with
    | _ :: _ =>
        (self, [], ([], Raise (DuplicateSymbolError (duplicate_symbols symbols))))
    | [] =>
        let '(self1, calls, (warnings, r)) := check_symbols self symbols in
        match r with
        | Raise e => (self1, calls, (warnings, Raise e))
        | Ok _ =>
            (self1, calls,
             (warnings,
              common_asset_class
                (private_get
                   (Client._AlpacaClient__symbols (AlpacaClient.as_client self1)))
                symbols))
        end
    end.

End Validator.

(** [AlpacaDataClient.get_downloader_and_request]; [clients] is
    [self.client.clients]. Both entries of [client_map] are evaluated
    before the asset class is looked up. The display of
    [downloader_request_map] has the keys of the source: [TRADE],
    [QUOTE], [TRADE]; [AlpacaDataSource.DatasetType] of
    [neural.data.enums] is read as the enumeration [DatasetType] that
    the argument belongs to. *)
Definition get_downloader_and_request (clients : option (gmap string SdkClient))
    (dataset_type : DatasetType) (asset_class : AssetClass)
  : Py.outcome (Downloader * RequestClass) :=
  let? stocks := Py.subscript clients "stocks" in
  let? crypto := Py.subscript clients "crypto" in
  let client_map := Py.dict_display [(US_EQUITY, stocks); (CRYPTO, crypto)] in
  let? client := Py.getitem AssetClass_name client_map asset_class in
  let downloader_request_map :=
    Py.dict_display
      [(TRADE, Py.dict_display [(US_EQUITY, ("get_stock_bars", StockBarsRequest));
                                (CRYPTO, ("get_crypto_bars", CryptoBarsRequest))]);
       (QUOTE, Py.dict_display [(US_EQUITY, ("get_stock_quotes", StockQuotesRequest));
                                (CRYPTO, ("get_crypto_quotes", CryptoQuotesRequest))]);
       (TRADE, Py.dict_display [(US_EQUITY, ("get_stock_trades", StockTradesRequest));
                                (CRYPTO, ("get_crypto_trades", CryptoTradesRequest))])] in
  let? by_asset_class :=
    Py.getitem DatasetType_name downloader_request_map dataset_type in
  let? entry := Py.getitem AssetClass_name by_asset_class asset_class in
  let '(downloader_method_name, request) := entry in
  let? downloader := safe_method_call client downloader_method_name in
  Py.Return (downloader, request).

End AlpacaDataClient.

(** ** Data frames *)

(** Ascending sort of a list ([sorted(...)], the key order of
    [groupby], the order of index levels). *)
Fixpoint insert_sorted {A : Type} (leb : A -> A -> bool) (x : A) (l : list A) : list A :=
  match l with
  | [] => [x]
  | y :: rest => if leb x y then x :: y :: rest else y :: insert_sorted leb x rest
  end.

Definition sort_by {A : Type} (leb : A -> A -> bool) (l : list A) : list A :=
  foldr (insert_sorted leb) [] l.

(** One row of the provider's frame: the [(symbol, timestamp)] index
    entry and the numeric columns. *)
Record RawRecord (V : Type) : Type := {
  rec_symbol : string;
  rec_time : Z;
  rec_values : list V
}.
Arguments rec_symbol {V} _.
Arguments rec_time {V} _.
Arguments rec_values {V} _.

(** The provider's frame: column names and rows. *)
Record RawDataset (V : Type) : Type := {
  df_columns : list string;
  df_rows : list (RawRecord V)
}.
Arguments df_columns {V} _.
Arguments df_rows {V} _.

(** A row of a frame indexed by timestamp, with the symbol as a column
    (after [reset_index]); [None] is a row of NaN. *)
Record SymbolRow (V : Type) : Type := {
  row_symbol : string;
  row_time : Z;
  row_values : option (list V)
}.
Arguments row_symbol {V} _.
Arguments row_time {V} _.
Arguments row_values {V} _.

Section Frames.
Context {V : Type}.

(** [raw_dataset.index.get_level_values('symbol').unique().tolist()] *)
Definition dataset_symbols (raw_dataset : RawDataset V) : list string :=
  remove_dups (map rec_symbol (df_rows raw_dataset)).

(** [set(dataset_symbols) ^ set(symbols)]: the symmetric difference. *)
Definition symmetric_difference (a b : gset string) : gset string :=
  (a ∖ b) ∪ (b ∖ a).

Definition missing_symbols (raw_dataset : RawDataset V) (symbols : list string)
  : gset string :=
  symmetric_difference (list_to_set (dataset_symbols raw_dataset)) (list_to_set symbols).

(** [raw_dataset.index.levels[1]]: the distinct timestamps, ascending. *)
Definition levels_1 (raw_dataset : RawDataset V) : list Z :=
  sort_by Z.leb (remove_dups (map rec_time (df_rows raw_dataset))).

(** The row of the provider's frame at index entry [(symbol, t)]. *)
Definition loc (raw_dataset : RawDataset V) (symbol : string) (t : Z)
  : option (list V) :=
  rec_values <$>
    List.find (fun r => bool_decide (rec_symbol r = symbol) && bool_decide (rec_time r = t))
              (df_rows raw_dataset).

(** [raw_dataset.reindex(index=pd.MultiIndex.from_product([symbols,
    raw_dataset.index.levels[1]]))] followed by
    [reset_index(level=0, names='symbol')]: one row per requested symbol
    and known timestamp, symbols in the caller's order, NaN where the
    provider had no row. *)
Definition reindex_to_symbols (raw_dataset : RawDataset V) (symbols : list string)
  : list (SymbolRow V) :=
  flat_map (fun symbol =>
    map (fun t => {| row_symbol := symbol; row_time := t;
                     row_values := loc raw_dataset symbol t |})
        (levels_1 raw_dataset))
    symbols.

(** [df.groupby('symbol')]: the groups in ascending key order (pandas
    sorts group keys by default), each with its rows in frame order. *)
Definition groupby_symbol (df : list (SymbolRow V))
  : list (string * list (SymbolRow V)) :=
  map (fun key => (key, List.filter (fun r => bool_decide (row_symbol r = key)) df))
      (sort_by String.leb (remove_dups (map row_symbol df))).

(** A row of NaN has one missing cell per column. *)
Definition row_cells (width : nat) (r : option (list V)) : list (option V) :=
  match r with
  | Some values => map Some values
  | None => repeat None width
  end.

(** [pd.concat(processed_groups, axis=1)] for groups that share the
    index of [n] grid points: the blocks side by side. *)
Definition concat_axis_1 (n : nat) (blocks : list (list (list (option V))))
  : list (list (option V)) :=
  foldr (zip_with app) (repeat [] n) blocks.

End Frames.

(** ** The density statistic and forward fill ([DataProcessor]) *)

Module DataProcessor.

(** The pipeline calls [DataProcessor.reindex_and_forward_fill] and reads
    [DataProcessor.running_dataset_density]; the class itself is defined
    outside the modules embedded here, so this module follows the
    specification (sections 3 and 4.3). *)

(** Modelled from the spec: the state behind
    [DataProcessor.running_dataset_density]. The tracker keeps the
    cumulative number of observed cells and of all grid cells over the
    sessions processed so far. *)
Record DensityTracker : Type := {
  observed_cells : N;
  total_cells : N
}.

(** Modelled from the spec: the tracker before the first session. *)
Definition initial_tracker : DensityTracker :=
  {| observed_cells := 0; total_cells := 0 |}.

(** Modelled from the spec: the update of the tracker with one
    session's [(observed_cells, total_cells)]. *)
Definition update_density (observed total : N) (tr : DensityTracker) : DensityTracker :=
  {| observed_cells := (observed_cells tr + observed)%N;
     total_cells := (total_cells tr + total)%N |}.

(** Modelled from the spec: [DataProcessor.running_dataset_density], the
    fraction of all grid cells of all processed sessions that were
    observed; 0 before the first cell. *)
Definition running_dataset_density (tr : DensityTracker) : Q :=
  if (total_cells tr =? 0)%N then 0%Q
  else (inject_Z (Z.of_N (observed_cells tr)) / inject_Z (Z.of_N (total_cells tr)))%Q.

(** The per-session average of averages, the statistic the tracker is
    said not to be. *)
Definition session_ratio (counts : N * N) : Q :=
  (inject_Z (Z.of_N (fst counts)) / inject_Z (Z.of_N (snd counts)))%Q.

Definition average_of_averages (sessions : list (N * N)) : Q :=
  (foldr Qplus 0%Q (map session_ratio sessions)
   / inject_Z (Z.of_nat (length sessions)))%Q.

(** The tracker after a sequence of sessions, each given by its
    observed and total cells. *)
Definition track_sessions (sessions : list (N * N)) (tr : DensityTracker)
  : DensityTracker :=
  fold_left (fun tr counts => update_density (fst counts) (snd counts) tr) sessions tr.

(** The grid step of a resolution, in seconds. Only the accepted
    resolutions reach the grid. *)
Definition resolution_seconds (resolution : string) : Z :=
  if bool_decide (resolution = "1Min") then 60
  else if bool_decide (resolution = "5Min") then 300
  else if bool_decide (resolution = "15Min") then 900
  else if bool_decide (resolution = "30Min") then 1800
  else 0.

(** Modelled from the spec: the canonical timestamp grid
    [open, open+resolution, ...] up to but excluding [close]. *)
Fixpoint grid_from (fuel : nat) (t close step : Z) : list Z :=
  match fuel with
  | O => []
  | S fuel' => if t <? close then t :: grid_from fuel' (t + step) close step else []
  end.

(** Modelled from the spec: the grid of a session; a positive step
    reaches [close] in at most [close - open] steps. *)
Definition session_grid (open close step : Z) : list Z :=
  grid_from (Z.to_nat (close - open)) open close step.

Section ForwardFill.
Context {V : Type}.

(** The raw observation of a symbol's frame at a timestamp: the row
    labelled [t], unless absent or NaN. *)
Definition observation (data : list (SymbolRow V)) (t : Z) : option (list V) :=
  match List.find (fun r => bool_decide (row_time r = t)) data with
  | Some r => row_values r
  | None => None
  end.

(** Modelled from the spec: reindexing a symbol's rows onto the grid. *)
Definition reindex (data : list (SymbolRow V)) (index : list Z)
  : list (option (list V)) :=
  map (observation data) index.

(** Modelled from the spec: a grid point with no observation takes the
    most recent prior value; with none before it, it stays missing. *)
Fixpoint ffill_from {A : Type} (last : option A) (l : list (option A))
  : list (option A) :=
  match l with
  | [] => []
  | x :: rest =>
      let current := match x with Some v => Some v | None => last end in
      current :: ffill_from current rest
  end.

Definition ffill {A : Type} (l : list (option A)) : list (option A) :=
  ffill_from None l.

(** Number of observed rows of a reindexed frame. *)
Definition count_observed (processed : list (option (list V))) : nat :=
  length (List.filter (fun r => bool_decide (is_Some r)) processed).

(** Modelled from the spec: [DataProcessor.reindex_and_forward_fill],
    which is defined outside the modules embedded here. It reindexes
    one symbol's rows onto the session grid, reports the observed and
    the total cells of the block to the density tracker and
    forward-fills the block. *)
Definition reindex_and_forward_fill (width : nat) (data : list (SymbolRow V))
    (open close : Z) (resolution : string) (tr : DensityTracker)
  : DensityTracker * list (option (list V)) :=
  let index := session_grid open close (resolution_seconds resolution) in
  let processed := reindex data index in
  let observed := N.of_nat (count_observed processed * width) in
  let total := N.of_nat (length processed * width) in
  (update_density observed total tr, ffill processed).

End ForwardFill.

End DataProcessor.

(** ** The dataset store ([DatasetMetadata], [DatasetIO]) *)

(** The descriptor built for every chunk; the fields are those the
    pipeline passes to the constructor. *)
Record DatasetMetadata : Type := {
  md_dataset_type : list DatasetType;
  md_column_schema : list string;
  md_asset_class : AssetClass;
  md_symbols : list string;
  md_start : Z;
  md_end : Z;
  md_resolution : string;
  md_n_rows : nat;
  md_n_columns : nat
}.

(** A stored dataset: the matrix and its descriptor. *)
Record Dataset (V : Type) : Type := {
  matrix : list (list (option V));
  metadata : DatasetMetadata
}.
Arguments matrix {V} _.
Arguments metadata {V} _.

(** The persistent container, keyed by file path and dataset name. *)
Abbreviation Store V := (gmap (string * string) (Dataset V)).

Module DatasetIO.

(** Modelled from the spec: an append is accepted when column schema,
    resolution, asset class and symbol list of the chunk are those of
    the stored descriptor. *)
Definition compatible (stored chunk : DatasetMetadata) : bool :=
  bool_decide (md_column_schema stored = md_column_schema chunk)
  && bool_decide (md_resolution stored = md_resolution chunk)
  && bool_decide (md_asset_class stored = md_asset_class chunk)
  && bool_decide (md_symbols stored = md_symbols chunk).

(** Modelled from the spec: an accepted append extends the row count
    and the end timestamp of the stored descriptor. *)
Definition extend_metadata (stored chunk : DatasetMetadata) : DatasetMetadata :=
  {| md_dataset_type := md_dataset_type stored;
     md_column_schema := md_column_schema stored;
     md_asset_class := md_asset_class stored;
     md_symbols := md_symbols stored;
     md_start := md_start stored;
     md_end := md_end chunk;
     md_resolution := md_resolution stored;
     md_n_rows := (md_n_rows stored + md_n_rows chunk)%nat;
     md_n_columns := md_n_columns stored |}.

Section Store.
Context {V : Type}.

(** Modelled from the spec: [DatasetIO.write_to_hdf5], which is defined
    outside the modules embedded here. A new name creates the dataset
    from the chunk; an existing name is extended when the chunk is
    compatible and refused with [IncompatibleAppendError] otherwise. *)
Definition write_to_hdf5 (file_path : string) (data_to_write : list (list (option V)))
    (chunk : DatasetMetadata) (target_dataset_name : string) (st : Store V)
  : Store V * result unit :=
  match st !! (file_path, target_dataset_name) with
  | None =>
      (<[(file_path, target_dataset_name) :=
           {| matrix := data_to_write; metadata := chunk |}]> st, Ok tt)
  | Some dataset =>
      if compatible (metadata dataset) chunk then
        (<[(file_path, target_dataset_name) :=
             {| matrix := matrix dataset ++ data_to_write;
                metadata := extend_metadata (metadata dataset) chunk |}]> st, Ok tt)
      else (st, Raise IncompatibleAppendError)
  end.

(** Modelled from the spec: [read(dataset_id)], the committed contents. *)
Definition read (file_path target_dataset_name : string) (st : Store V)
  : option (Dataset V) :=
  st !! (file_path, target_dataset_name).

(** A committed dataset is whole: its descriptor counts exactly the
    rows of its matrix. *)
Definition committed (dataset : Dataset V) : Prop :=
  md_n_rows (metadata dataset) = length (matrix dataset).

End Store.

End DatasetIO.

(** ** The pipeline ([AlpacaDataFetcher]) *)

(** One call of the provider, as issued by [download_raw_dataset]:
    [downloader(request(symbol_or_symbols=symbols, timeframe=resolution,
    start=start, end=end))]. *)
Record FetchCall : Type := {
  fetch_downloader : Downloader;
  fetch_request : RequestClass;
  fetch_symbols : list string;
  fetch_timeframe : string;
  fetch_start : Z;
  fetch_end : Z
}.

(** The collaborators of the pipeline: the client object, the path
    check, the trading calendar, the conversion [to_timeframe] of
    [neural.tools.base] (the time frame of the SDK, by its name, or
    the exception it raises) and the provider behind the downloaders,
    which answers [None] when its response holds no frame. *)
Record Env (V : Type) : Type := {
  client : Client.t;
  validate_path : string -> bool;
  get_schedule : AssetClass -> Z -> Z -> list (Z * Z);
  to_timeframe : string -> Py.outcome string;
  provider : FetchCall -> option (RawDataset V)
}.
Arguments client {V} _.
Arguments validate_path {V} _.
Arguments get_schedule {V} _.
Arguments to_timeframe {V} _.
Arguments provider {V} _.

(** What a run can change: the store, the density tracker, the calls
    issued to the provider, the warnings logged and the densities shown
    on the progress bar. *)
Record State (V : Type) : Type := {
  store : Store V;
  tracker : DataProcessor.DensityTracker;
  fetches : list FetchCall;
  warning_log : list Warning;
  progress : list Q
}.
Arguments store {V} _.
Arguments tracker {V} _.
Arguments fetches {V} _.
Arguments warning_log {V} _.
Arguments progress {V} _.

(** Computations that read and write the state and may raise; the
    effects made before a [raise] persist. *)
Definition M (V A : Type) : Type := State V -> State V * result A.

Definition ret {V A : Type} (a : A) : M V A := fun st => (st, Ok a).

Definition raise {V A : Type} (e : Error) : M V A := fun st => (st, Raise e).

Definition bind {V A B : Type} (m : M V A) (k : A -> M V B) : M V B :=
  fun st =>
    match m st with
    | (st', Ok a) => k a st'
    | (st', Raise e) => (st', Raise e)
    end.

Notation "'do' x <- m ; k" := (bind m (fun x => k))
  (at level 10, x name, m at level 100, k at level 200).

(** A call whose built-in exception escapes to the caller. *)
Definition lift {V A : Type} (m : Py.outcome A) : M V A :=
  fun st =>
    (st, match m with Py.Return a => Ok a | Py.Raised e => Raise (PyError e) end).

Definition log_warnings {V : Type} (warnings : list Warning) : M V unit :=
  fun st => ({| store := store st; tracker := tracker st; fetches := fetches st;
                warning_log := warning_log st ++ warnings;
                progress := progress st |}, Ok tt).

Definition record_fetch {V : Type} (call : FetchCall) : M V unit :=
  fun st => ({| store := store st; tracker := tracker st;
                fetches := fetches st ++ [call];
                warning_log := warning_log st; progress := progress st |}, Ok tt).

(** Lifting of the tracker and store operations to the state. *)
Definition with_tracker {V A : Type}
    (f : DataProcessor.DensityTracker -> DataProcessor.DensityTracker * A) : M V A :=
  fun st =>
    let '(tr, a) := f (tracker st) in
    ({| store := store st; tracker := tr; fetches := fetches st;
        warning_log := warning_log st; progress := progress st |}, Ok a).

Definition with_store {V A : Type} (f : Store V -> Store V * result A) : M V A :=
  fun st =>
    let '(s, r) := f (store st) in
    ({| store := s; tracker := tracker st; fetches := fetches st;
        warning_log := warning_log st; progress := progress st |}, r).

(** [progress_bar_.set_description(f"Density: {...}")]: the running
    density is read and shown. *)
Definition set_description {V : Type} : M V unit :=
  fun st =>
    ({| store := store st; tracker := tracker st; fetches := fetches st;
        warning_log := warning_log st;
        progress := progress st
                    ++ [DataProcessor.running_dataset_density (tracker st)] |}, Ok tt).

(** Modelled from the spec: [create_column_schema], which is defined
    outside the modules embedded here. The schema of a frame is the
    ordered list of its column names (all columns are cast to one
    numeric type); the frame is given by the columns of its blocks. *)
Definition create_column_schema (block_columns : list (list string)) : list string :=
  concat block_columns.

Module AlpacaDataFetcher.

(** [AlpacaDataFetcher._validate_symbols]: the warnings logged and the
    outcome. The loop and the set of asset classes both read
    [self.client._AlpacaClient__symbols.get(symbol)]. *)
Definition _validate_symbols (client : Client.t) (symbols : list string)
  : list Warning * result AssetClass :=
  if (length symbols =? 0)%nat then ([], Raise EmptyInputError)
  else
    match duplicate_symbols symbols with
    | _ :: _ => ([], Raise (DuplicateSymbolError (duplicate_symbols symbols)))
    | [] =>
        let get := private_get (Client._AlpacaClient__symbols client) in
        let '(warnings, r) := check_symbols get symbols in
        match r with
        | Raise e => (warnings, Raise e)
        | Ok _ => (warnings, common_asset_class get symbols)
        end
    end.

Definition accepted_resolutions : list string :=
  ["1Min"; "5Min"; "15Min"; "30Min"].

(** [AlpacaDataFetcher._validate_resolution] *)
Definition _validate_resolution (resolution : string) : result unit :=
  if bool_decide (resolution ∈ accepted_resolutions) then Ok tt
  else Raise InvalidResolutionError.

(** [AlpacaDataFetcher.get_downloader_and_request]; [clients] is
    [self.client.clients]. Both entries of [client_map] are evaluated
    before the asset class is looked up. *)
Definition get_downloader_and_request (clients : option (gmap string SdkClient))
    (dataset_type : DatasetType) (asset_class : AssetClass)
  : Py.outcome (Downloader * RequestClass) :=
  let? stocks := Py.subscript clients "stocks" in
  let? crypto := Py.subscript clients "crypto" in
  let client_map := Py.dict_display [(US_EQUITY, stocks); (CRYPTO, crypto)] in
  let? client := Py.getitem AssetClass_name client_map asset_class in
  let downloader_request_map :=
    Py.dict_display
      [(BAR, Py.dict_display [(US_EQUITY, ("get_stock_bars", StockBarsRequest));
                              (CRYPTO, ("get_crypto_bars", CryptoBarsRequest))]);
       (QUOTE, Py.dict_display [(US_EQUITY, ("get_stock_quotes", StockQuotesRequest));
                                (CRYPTO, ("get_crypto_quotes", CryptoQuotesRequest))]);
       (TRADE, Py.dict_display [(US_EQUITY, ("get_stock_trades", StockTradesRequest));
                                (CRYPTO, ("get_crypto_trades", CryptoTradesRequest))])] in
  let? by_asset_class :=
    Py.getitem DatasetType_name downloader_request_map dataset_type in
  let? entry := Py.getitem AssetClass_name by_asset_class asset_class in
  let '(downloader_method_name, request) := entry in
  let? downloader := safe_method_call client downloader_method_name in
  Py.Return (downloader, request).

Section Pipeline.
Context {V : Type}.

(** [AlpacaDataFetcher.download_raw_dataset]: the conversion of the
    resolution, the lookup of downloader and request on the client of
    the fetcher, then one call of the provider; a response without a
    frame raises [KeyError]. *)
Definition download_raw_dataset (env : Env V) (dataset_type : DatasetType)
    (symbols : list string) (asset_class : AssetClass) (resolution : string)
    (start end_ : Z) : M V (RawDataset V) :=
  do resolution <- lift (to_timeframe env resolution);
  do found <- lift (get_downloader_and_request (Client.clients (client env))
                      dataset_type asset_class);
  let '(downloader, request) := found in
  let call := {| fetch_downloader := downloader; fetch_request := request;
                 fetch_symbols := symbols; fetch_timeframe := resolution;
                 fetch_start := start; fetch_end := end_ |} in
  do _ <- record_fetch call;
  match provider env call with
  | Some data_df => ret data_df
  | None => raise (KeyError "No data in requested range")
  end.

(** [for symbol, group in raw_dataset.groupby('symbol'): ...]: the
    groups are processed in the order [groupby] yields them. *)
Fixpoint process_groups (width : nat) (groups : list (string * list (SymbolRow V)))
    (market_open market_close : Z) (resolution : string)
    (tr : DataProcessor.DensityTracker)
  : DataProcessor.DensityTracker * list (string * list (option (list V))) :=
  match groups with
  | [] => (tr, [])
  | (symbol, group) :: rest =>
      let '(tr1, processed_group) :=
        DataProcessor.reindex_and_forward_fill width group market_open market_close
          resolution tr in
      let '(tr2, processed_groups) :=
        process_groups width rest market_open market_close resolution tr1 in
      (tr2, (symbol, processed_group) :: processed_groups)
  end.

(** The alignment of one session (the check for missing symbols, the
    reordering and the per-symbol processing of the loop body): the
    processed groups, each with the symbol it belongs to. *)
Definition align_session (symbols : list string) (raw_dataset : RawDataset V)
    (market_open market_close : Z) (resolution : string)
  : M V (list (string * list (option (list V)))) :=
  let missing := missing_symbols raw_dataset symbols in
  if bool_decide (missing = ∅) then
    let raw := reindex_to_symbols raw_dataset symbols in
    with_tracker
      (process_groups (length (df_columns raw_dataset)) (groupby_symbol raw)
         market_open market_close resolution)
  else raise (MissingSymbolDataError missing market_open market_close).

(** The body of the session loop. *)
Definition process_session (env : Env V) (file_path target_dataset_name : string)
    (dataset_type : DatasetType) (symbols : list string) (asset_class : AssetClass)
    (resolution : string) (session : Z * Z) : M V unit :=
  let '(market_open, market_close) := session in
  do raw_dataset <- download_raw_dataset env dataset_type symbols asset_class
                      resolution market_open market_close;
  do processed_groups <- align_session symbols raw_dataset market_open market_close
                           resolution;
  let width := length (df_columns raw_dataset) in
  let n_grid :=
    length (DataProcessor.session_grid market_open market_close
              (DataProcessor.resolution_seconds resolution)) in
  (* pd.concat(processed_groups, axis=1) and
     select_dtypes(include=np.number): the numeric columns of the blocks,
     side by side *)
  let features_df :=
    concat_axis_1 n_grid
      (map (fun g => map (row_cells width) (snd g)) processed_groups) in
  let column_schema :=
    create_column_schema (map (fun _ => df_columns raw_dataset) processed_groups) in
  (* to_numpy(dtype=np.float32) *)
  let features_np := features_df in
  let n_rows := length features_np in
  let n_columns := length column_schema in
  let metadata :=
    {| md_dataset_type := [dataset_type];
       md_column_schema := column_schema;
       md_asset_class := asset_class;
       md_symbols := symbols;
       md_start := market_open;
       md_end := market_close;
       md_resolution := resolution;
       md_n_rows := n_rows;
       md_n_columns := n_columns |} in
  do _ <- with_store
            (DatasetIO.write_to_hdf5 file_path features_np metadata target_dataset_name);
  set_description.

(** [for market_open, market_close in schedule.values: ...] *)
Fixpoint process_schedule (env : Env V) (file_path target_dataset_name : string)
    (dataset_type : DatasetType) (symbols : list string) (asset_class : AssetClass)
    (resolution : string) (schedule : list (Z * Z)) : M V unit :=
  match schedule with
  | [] => ret tt
  | session :: rest =>
      do _ <- process_session env file_path target_dataset_name dataset_type symbols
                asset_class resolution session;
      process_schedule env file_path target_dataset_name dataset_type symbols
        asset_class resolution rest
  end.

(** [AlpacaDataFetcher.download_features_to_hdf5] *)
Definition download_features_to_hdf5 (env : Env V) (file_path target_dataset_name : string)
    (dataset_type : DatasetType) (symbols : list string) (resolution : string)
    (start_date end_date : Z) : M V (option DatasetMetadata) :=
  if negb (validate_path env file_path) then raise (InvalidPathError file_path)
  else
    let '(warnings, validated) := _validate_symbols (client env) symbols in
    do _ <- log_warnings warnings;
    match validated with
    | Raise e => raise e
    | Ok asset_class =>
        match _validate_resolution resolution with
        | Raise e => raise e
        | Ok _ =>
            let schedule := get_schedule env asset_class start_date end_date in
            if (length schedule =? 0)%nat then raise EmptyScheduleError
            else
              do _ <- process_schedule env file_path target_dataset_name dataset_type
                        symbols asset_class resolution schedule;
              ret None
        end
    end.

End Pipeline.

End AlpacaDataFetcher.

(** ** Pipes ([neural/meta/pipe.py]) *)

Module Pipes.

(** The values the pipes keep in their attributes and pass to the
    wrappers: [None], booleans, numbers, and classes by name. *)
Inductive value : Type :=
| VNone
| VBool (b : bool)
| VNumber (q : Q)
| VClass (name : string).

(** One argument of a call, positional or by keyword. *)
Definition argument : Type := option string * value.

(** An environment: a base environment under the wrappers applied so
    far, each with the arguments of its construction. *)
Inductive env : Type :=
| Base (name : string)
| Wrapped (wrapper : string) (arguments : list argument) (inner : env).

(** The instance dictionary of a pipe object. *)
Abbreviation instance := (gmap string value).

(** [self.name] for a name that is neither a method nor a property of
    the class. *)
Definition getattr (class : string) (self : instance) (name : string)
  : Py.outcome value :=
  match self !! name with
  | Some v => Py.Return v
  | None =>
      Py.Raised (Py.AttributeError
                   ("'" ++ class ++ "' object has no attribute '" ++ name ++ "'"))
  end.

(** The truth value of [if x:]. *)
Definition truthy (v : value) : bool :=
  match v with
  | VNone => false
  | VBool b => b
  | VNumber q => negb (Qeq_bool q 0)
  | VClass _ => true
  end.

Section Pipes.

(** The constructors of the wrapper classes, from the wrapper modules:
    the wrapped environment, or what the constructor raises. *)
Variable construct : string -> list argument -> env -> Py.outcome env.

(** [f(args..., env)] for an attribute value [f]. *)
Definition call (f : value) (arguments : list argument) (e : env) : Py.outcome env :=
  match f with
  | VClass name => construct name arguments e
  | VNone => Py.Raised (Py.TypeError "'NoneType' object is not callable")
  | VBool _ => Py.Raised (Py.TypeError "'bool' object is not callable")
  | VNumber _ => Py.Raised (Py.TypeError "'float' object is not callable")
  end.

(** The assignments of an [__init__], in order. *)
Definition assign (self : instance) (name : string) (v : value) : instance :=
  <[name := v]> self.

(** [RewardPipe.__init__] *)
Definition RewardPipe__init__ : instance :=
  assign (assign (assign ∅
    "reward_generator" (VClass "RewardGeneratorWrapper"))
    "interest" (VClass "LiabilityInterstRewardWrapper"))
    "reward_normalizer" (VClass "RewardNormalizerWrapper").

(** [RewardPipe.pipe] *)
Definition RewardPipe_pipe (self : instance) (e : env) : Py.outcome env :=
  let? f := getattr "RewardPipe" self "reward_generator" in
  let? e := call f [] e in
  let? f := getattr "RewardPipe" self "interest" in
  let? e := call f [] e in
  let? f := getattr "RewardPipe" self "reward_normalizer" in
  call f [] e.

(** [ObservationPipe.__init__] *)
Definition ObservationPipe__init__ (buffer_size stack_size track_statistics : value)
  : instance :=
  assign (assign (assign (assign (assign (assign (assign (assign ∅
    "buffer_size" buffer_size)
    "stack_size" stack_size)
    "observation_statistics" VNone)
    "track_statistics" track_statistics)
    "flatten" (VClass "FlattenToNUmpyObservationWrapper"))
    "buffer" (VClass "ObservationBufferWrapper"))
    "stacker" (VClass "ObservationStackerWrapper"))
    "normalize_observation" (VClass "ObservationNormalizerWrapper").

(** [ObservationPipe.pipe] *)
Definition ObservationPipe_pipe (self : instance) (e : env) : Py.outcome env :=
  let? f := getattr "ObservationPipe" self "flatten" in
  let? e := call f [] e in
  let? f := getattr "ObservationPipe" self "buffer" in
  let? a := getattr "ObservationPipe" self "buffer_size" in
  let? e := call f [(Some "buffer_size", a)] e in
  let? f := getattr "ObservationPipe" self "stacker" in
  let? a := getattr "ObservationPipe" self "stack_size" in
  let? e := call f [(Some "stack_size", a)] e in
  let? f := getattr "ObservationPipe" self "normalize_observation" in
  let? a := getattr "ObservationPipe" self "observation_statistics" in
  let? b := getattr "ObservationPipe" self "track_statistics" in
  call f [(Some "observation_statistics", a); (Some "track_statistics", b)] e.

(** [ActionPipe.__init__]: [min_trade] is assigned twice. *)
Definition ActionPipe__init__ (min_trade integer : value) : instance :=
  assign (assign (assign (assign (assign (assign ∅
    "min_trade" min_trade)
    "integer" integer)
    "min_trade" (VClass "MinTradeSizeActionWrapper"))
    "integer_quantity" (VClass "IntegerAssetQuantityActionWrapper"))
    "position_close" (VClass "PositionCloseActionWrapper"))
    "shorting" (VClass "ShortingActionWrapper").

(** [ActionPipe.pipe] *)
Definition ActionPipe_pipe (self : instance) (e : env) : Py.outcome env :=
  let? f := getattr "ActionPipe" self "min_trade" in
  let? a := getattr "ActionPipe" self "min_trade" in
  let? e := call f [(Some "min_trade", a)] e in
  let? f := getattr "ActionPipe" self "integer_quantity" in
  let? a := getattr "ActionPipe" self "integer" in
  let? e := call f [(Some "integer", a)] e in
  let? f := getattr "ActionPipe" self "position_close" in
  let? e := call f [] e in
  let? f := getattr "ActionPipe" self "shorting" in
  call f [] e.

(** [HeadActionPipe.__init__]: the guard, then the assignments; the
    argument [discrete] is not kept. *)
Definition HeadActionPipe__init__ (uniform fixed discrete : bool)
    (trade_equity_ratio hold_threshold : Q) (clip : bool) (low high : Q)
  : Py.outcome instance :=
  if uniform && discrete then
    Py.Raised (Py.ValueError
      "Discrete models can only be used with uniform trading budget distribution.")
  else
    Py.Return
      (assign (assign (assign (assign (assign (assign (assign (assign (assign (assign
       (assign (assign (assign (assign ∅
        "uniform" (VBool uniform))
        "fixed" (VBool fixed))
        "trade_equity_ratio" (VNumber trade_equity_ratio))
        "hold_threshold" (VNumber hold_threshold))
        "clip" (VBool clip))
        "low" (VNumber low))
        "high" (VNumber high))
        "fixed_uniform_parser" (VClass "EquityBasedFixedUniformActionParser"))
        "variable_uniform_parser" VNone)
        "fixed_nonuniform_parser" VNone)
        "variable_nonuniform_parser" VNone)
        "fixed_uniform_mapper" VNone)
        "fixed_nonuniform_mapper" VNone)
        "action_clipper" (VClass "ActionClipperWrapper")).

(** The property [HeadActionPipe.parser]: the callable it returns. *)
Definition HeadActionPipe_parser (self : instance)
  : Py.outcome (env -> Py.outcome env) :=
  let? fixed := getattr "HeadActionPipe" self "fixed" in
  let? uniform := getattr "HeadActionPipe" self "uniform" in
  if truthy fixed then
    if truthy uniform then
      Py.Return (fun e =>
        let? f := getattr "HeadActionPipe" self "fixed_uniform_parser" in
        let? a := getattr "HeadActionPipe" self "trade_equity_ratio" in
        let? b := getattr "HeadActionPipe" self "hold_threshold" in
        call f [(None, a); (None, b)] e)
    else
      let? f := getattr "HeadActionPipe" self "fixed_nonuniform_parser" in
      Py.Return (call f [])
  else
    if truthy uniform then
      let? f := getattr "HeadActionPipe" self "variable_uniform_parser" in
      Py.Return (call f [])
    else
      let? f := getattr "HeadActionPipe" self "variable_nonuniform_parser" in
      Py.Return (call f []).

(** The property [HeadActionPipe.mapper]. *)
Definition HeadActionPipe_mapper (self : instance) : Py.outcome value :=
  let? uniform := getattr "HeadActionPipe" self "uniform" in
  if truthy uniform then getattr "HeadActionPipe" self "fixed_uniform_mapper"
  else getattr "HeadActionPipe" self "fixed_nonuniform_mapper".

(** [HeadActionPipe.pipe]; the attribute read after the parser is
    spelled [discete] in the source. *)
Definition HeadActionPipe_pipe (self : instance) (e : env) : Py.outcome env :=
  let? parser := HeadActionPipe_parser self in
  let? e := parser e in
  let? discrete := getattr "HeadActionPipe" self "discete" in
  let? e :=
    if truthy discrete then
      let? mapper := HeadActionPipe_mapper self in
      call mapper [] e
    else Py.Return e in
  let? clip := getattr "HeadActionPipe" self "clip" in
  if truthy clip then
    let? f := getattr "HeadActionPipe" self "action_clipper" in
    let? low := getattr "HeadActionPipe" self "low" in
    let? high := getattr "HeadActionPipe" self "high" in
    call f [(None, low); (None, high)] e
  else Py.Return e.

(** [MarginAccountPipe.__init__]; the pipe classes it keeps are the
    classes above. *)
Definition MarginAccountPipe__init__ (trade_equity_ratio
    excess_margin_ratio_threshold min_trade integer buffer_size stack_size
    track_statistics verbosity : value) : instance :=
  assign (assign (assign (assign (assign (assign (assign (assign (assign (assign
  (assign (assign (assign ∅
    "trade_equity_ratio" trade_equity_ratio)
    "excess_margin_ratio_threshold" excess_margin_ratio_threshold)
    "min_trade" min_trade)
    "integer" integer)
    "buffer_size" buffer_size)
    "stack_size" stack_size)
    "observation_statistics" VNone)
    "track_statistics" track_statistics)
    "verbosity" verbosity)
    "margin_account_metadata" (VClass "MarginAccountMetaDataWrapper"))
    "render" (VClass "ConsoleTearsheetRenderWrapper"))
    "initial_margin" (VClass "InitialMarginActionWrapper"))
    "excess_margin" (VClass "ExcessMarginActionWrapper").

(** [MarginAccountPipe.pipe]: four wrappers, then the reward, the
    observation and the action pipe, then a head pipe built with its
    defaults. *)
Definition MarginAccountPipe_pipe (self : instance) (e : env) : Py.outcome env :=
  let? f := getattr "MarginAccountPipe" self "margin_account_metadata" in
  let? e := call f [] e in
  let? f := getattr "MarginAccountPipe" self "render" in
  let? a := getattr "MarginAccountPipe" self "verbosity" in
  let? e := call f [(Some "verbosity", a)] e in
  let? f := getattr "MarginAccountPipe" self "initial_margin" in
  let? e := call f [] e in
  let? f := getattr "MarginAccountPipe" self "excess_margin" in
  let? a := getattr "MarginAccountPipe" self "excess_margin_ratio_threshold" in
  let? e := call f [(Some "excess_margin_ratio_threshold", a)] e in
  let? e := RewardPipe_pipe RewardPipe__init__ e in
  let? buffer_size := getattr "MarginAccountPipe" self "buffer_size" in
  let? stack_size := getattr "MarginAccountPipe" self "stack_size" in
  let? track_statistics := getattr "MarginAccountPipe" self "track_statistics" in
  let? e :=
    ObservationPipe_pipe
      (ObservationPipe__init__ buffer_size stack_size track_statistics) e in
  let? min_trade := getattr "MarginAccountPipe" self "min_trade" in
  let? integer := getattr "MarginAccountPipe" self "integer" in
  let? e := ActionPipe_pipe (ActionPipe__init__ min_trade integer) e in
  let? head :=
    HeadActionPipe__init__ true true false (5 # 100) (15 # 100) false (-1) 1 in
  HeadActionPipe_pipe head e.

End Pipes.

End Pipes.

(** ** Sample data *)

(** The SDK clients of a sample connection. *)
Definition sample_stocks : SdkClient :=
  {| sdk_class := "StockHistoricalDataClient";
     sdk_attributes := {["get_stock_bars"; "get_stock_quotes"; "get_stock_trades"]} |}.

Definition sample_crypto : SdkClient :=
  {| sdk_class := "CryptoHistoricalDataClient";
     sdk_attributes := {["get_crypto_bars"; "get_crypto_trades"]} |}.

Definition sample_clients : gmap string SdkClient :=
  <["stocks" := sample_stocks]> (<["crypto" := sample_crypto]> ∅).

Module Sample.

Definition equity (tradable_ : bool) (status_ : AssetStatus) : Asset :=
  {| asset_class := US_EQUITY; tradable := tradable_; status := status_;
     fractionable := true; easy_to_borrow := true |}.

Definition crypto : Asset :=
  {| asset_class := CRYPTO; tradable := true; status := ACTIVE;
     fractionable := true; easy_to_borrow := false |}.

(** Three equities (one of them delisted: neither tradable nor active)
    and one crypto pair. *)
Definition sample_catalog : Catalog :=
  <["AAPL" := equity true ACTIVE]>
    (<["MSFT" := equity true ACTIVE]>
       (<["LEHM" := equity false INACTIVE]>
          (<["BTC/USD" := crypto]> ∅))).

Definition bar (symbol : string) (t : Z) (price : Z) : RawRecord Z :=
  {| rec_symbol := symbol; rec_time := t; rec_values := [price] |}.

(** A session of twenty minutes from second 0, five-minute bars. The
    provider answers MSFT before AAPL; AAPL has no bar at 0 and at 600,
    MSFT has none at 300. *)
Definition sample_frame : RawDataset Z :=
  {| df_columns := ["close"];
     df_rows := [bar "MSFT" 0 310; bar "MSFT" 600 312; bar "MSFT" 900 313;
                 bar "AAPL" 300 150; bar "AAPL" 900 152] |}.

(** The same answer with a symbol nobody asked for. *)
Definition frame_with_extra_symbol : RawDataset Z :=
  {| df_columns := ["close"];
     df_rows := df_rows sample_frame ++ [bar "GOOG" 0 99] |}.

(** A connected client object on which the symbol dictionary has been
    set under the name that the data fetcher reads. *)
Definition sample_client : Client.t :=
  {| Client.clients := Some sample_clients;
     Client._AlpacaClient__symbols := Present sample_catalog |}.

Definition sample_env (frame : RawDataset Z) : Env Z :=
  {| client := sample_client;
     validate_path := fun _ => true;
     get_schedule := fun _ start_date end_date =>
       if start_date <=? end_date then [(0, 1200)] else [];
     to_timeframe := fun resolution => Py.Return resolution;
     provider := fun _ => Some frame |}.

Definition empty_state : State Z :=
  {| store := ∅; tracker := DataProcessor.initial_tracker; fetches := [];
     warning_log := []; progress := [] |}.

End Sample.

(** ** Vocabulary of the properties *)

(** A symbol passes the loop: it is known, tradable and active. *)
Definition valid_symbol (cat : Catalog) (symbol : string) : Prop :=
  exists symbol_data, cat !! symbol = Some symbol_data
    /\ tradable symbol_data = true /\ status symbol_data = ACTIVE.

(** [ceil(a / b)] for a positive [b]. *)
Definition ceil_div (a b : Z) : Z := (a + b - 1) / b.

(** The provider returned at least one row for the symbol. *)
Definition has_records {V : Type} (raw_dataset : RawDataset V) (symbol : string) : Prop :=
  symbol ∈ map rec_symbol (df_rows raw_dataset).

(** The failures of input validation: empty, duplicate, unknown,
    untradable, inactive or mixed symbols, a resolution that is not
    accepted, an empty schedule. *)
Definition validation_error (e : Error) : bool :=
  match e with
  | EmptyInputError | DuplicateSymbolError _ | UnknownSymbolError _
  | NotTradableError _ | InactiveSymbolError _ | MixedAssetClassError
  | InvalidResolutionError | EmptyScheduleError => true
  | _ => false
  end.

Definition sum_N (l : list N) : N := foldr N.add 0%N l.

(** Every dataset of the store is whole. *)
Definition store_committed {V : Type} (st : Store V) : Prop :=
  forall key dataset, st !! key = Some dataset -> DatasetIO.committed dataset.

(** A density is a fraction. *)
Definition unit_interval (q : Q) : Prop := (0 <= q /\ q <= 1)%Q.

(** The tracker has not observed more cells than there are. *)
Definition tracker_ok (tr : DataProcessor.DensityTracker) : Prop :=
  (DataProcessor.observed_cells tr <= DataProcessor.total_cells tr)%N.

(** ** More sample data *)

(** AAPL in the sample session: no bar at 0, a bar at 300, none at 600. *)
Definition sample_AAPL_rows : list (SymbolRow Z) :=
  [ {| row_symbol := "AAPL"; row_time := 0; row_values := None |};
    {| row_symbol := "AAPL"; row_time := 300; row_values := Some [150] |};
    {| row_symbol := "AAPL"; row_time := 600; row_values := None |};
    {| row_symbol := "AAPL"; row_time := 900; row_values := Some [152] |} ].

(** A stored dataset of two symbols and a chunk of three. *)
Definition two_symbol_metadata : DatasetMetadata :=
  {| md_dataset_type := [BAR]; md_column_schema := ["close"; "close"];
     md_asset_class := US_EQUITY; md_symbols := ["AAPL"; "MSFT"];
     md_start := 0; md_end := 1200; md_resolution := "5Min";
     md_n_rows := 1; md_n_columns := 2 |}.

Definition three_symbol_metadata : DatasetMetadata :=
  {| md_dataset_type := [BAR]; md_column_schema := ["close"; "close"; "close"];
     md_asset_class := US_EQUITY; md_symbols := ["AAPL"; "GOOG"; "MSFT"];
     md_start := 86400; md_end := 87600; md_resolution := "5Min";
     md_n_rows := 1; md_n_columns := 3 |}.

Definition two_symbol_store : Store Z :=
  {[ ("dataset.h5", "bars") :=
       {| matrix := [[Some 150; Some 310]]; metadata := two_symbol_metadata |} ]}.

(** Closed decidable goals are settled by evaluation. *)
Ltac decide_by_compute :=
  lazymatch goal with
  | |- ?P => apply (bool_decide_unpack P); vm_compute; exact I
  end.

(** ** Vocabulary of the further properties *)

(** The warnings of a list of symbols, in list order. *)
Definition warnings_of (cat : Catalog) (symbols : list string) : list Warning :=
  flat_map (fun symbol =>
              match cat !! symbol with
              | Some symbol_data => symbol_warnings symbol symbol_data
              | None => []
              end) symbols.


(** The symbol dictionary of a client, as the validators read its
    assets. *)
Definition catalog_of (d : gmap string SdkAsset) : Catalog := asset_info <$> d.

(** [self.client.symbols[symbol]] on the dictionary that the property
    [symbols] has returned. *)
Definition subscript_symbols (d : gmap string SdkAsset) (symbol : string)
  : result (option Asset) :=
  match d !! symbol with
  | Some asset => Ok (Some (asset_info asset))
  | None => Raise (PyError (Py.KeyError symbol))
  end.

(** The exception of reading the attribute that an [AlpacaClient]
    lacks. *)
Definition no_private_symbols : Error :=
  PyError (Py.AttributeError
    "'AlpacaClient' object has no attribute '_AlpacaClient__symbols'").

(** The errors the specification gives to a single symbol. *)
Definition symbol_error (e : Error) : bool :=
  match e with
  | UnknownSymbolError _ | NotTradableError _ | InactiveSymbolError _ => true
  | _ => false
  end.

(** A client that has been connected but has fetched nothing. *)
Definition connected_client : AlpacaClient.t unit :=
  {| AlpacaClient.key := Some "key"; AlpacaClient.secret := Some "secret";
     AlpacaClient.clients :=
       Some (<["trading" := {| sdk_class := "TradingClient";
                               sdk_attributes := {["get_all_assets"]} |}]>
               sample_clients);
     AlpacaClient.account := None; AlpacaClient._assets := None;
     AlpacaClient._symbols := None; AlpacaClient._asset_classes := None;
     AlpacaClient._exchanges := None |}.

(** Assets as the trading API lists them; AAPL is listed twice. *)
Definition sample_assets : list SdkAsset :=
  [ {| asset_symbol := "AAPL"; asset_info := Sample.equity false INACTIVE |};
    {| asset_symbol := "MSFT"; asset_info := Sample.equity true ACTIVE |};
    {| asset_symbol := "AAPL"; asset_info := Sample.equity true ACTIVE |} ].

(** Wrapper constructors that all succeed: each puts its wrapper on
    top of the environment. *)
Definition wrap (name : string) (arguments : list Pipes.argument) (e : Pipes.env)
  : Py.outcome Pipes.env :=
  Py.Return (Pipes.Wrapped name arguments e).

(** The listing of a trading API that holds the assets of the sample
    catalog. *)
Definition sample_listing : list SdkAsset :=
  [ {| asset_symbol := "AAPL"; asset_info := Sample.equity true ACTIVE |};
    {| asset_symbol := "MSFT"; asset_info := Sample.equity true ACTIVE |};
    {| asset_symbol := "LEHM"; asset_info := Sample.equity false INACTIVE |};
    {| asset_symbol := "BTC/USD"; asset_info := Sample.crypto |} ].

(** * Properties *)

(** ** Symbol validation *)

Lemma filter_all_false {A : Type} (f : A -> bool) (l : list A) :
  (forall x, f x = false) -> List.filter f l = [].
Proof.
  intros Hf. induction l as [|x l IH]; simpl; [reflexivity|].
  now rewrite Hf.
Qed.

Lemma duplicate_symbols_NoDup (symbols : list string) :
  NoDup symbols -> duplicate_symbols symbols = [].
Proof.
  intros Hnd. unfold duplicate_symbols. apply filter_all_false.
  intros x. apply Nat.ltb_ge. unfold count.
  apply NoDup_ListNoDup in Hnd.
  now apply (proj1 (NoDup_count_occ string_dec symbols)).
Qed.


Section ValidatorFacts.

Variable get : string -> result (option Asset).

Lemma check_symbols_raises_first (symbol : string) (rest : list string) (e : Error) :
  get symbol = Raise e -> check_symbols get (symbol :: rest) = ([], Raise e).
Proof. intros Hget. cbn [check_symbols]. now rewrite Hget. Qed.

Lemma common_asset_class_raises_first (symbol : string) (rest : list string)
    (e : Error) :
  get symbol = Raise e -> common_asset_class get (symbol :: rest) = Raise e.
Proof.
  intros Hget. unfold common_asset_class, asset_classes. cbn [asset_class_list].
  now rewrite Hget.
Qed.

(** The loop fails only with what the read raises or with the error of
    one of its three [raise] sites, for a symbol of the list. *)
Lemma check_symbols_Raise (symbols : list string) (e : Error) :
  snd (check_symbols get symbols) = Raise e ->
  exists s, s ∈ symbols
    /\ (get s = Raise e \/ e = UnknownSymbolError s \/ e = NotTradableError s
        \/ e = InactiveSymbolError s).
Proof.
  induction symbols as [|s l IH]; cbn [check_symbols snd]; [discriminate|].
  destruct (get s) as [[d|]|e0] eqn:Hs.
  - destruct (tradable d); cbn [negb];
      [|intros [= <-]; exists s; split; [left | auto]].
    case_bool_decide; cbn [negb];
      [|intros [= <-]; exists s; split; [left | auto]].
    destruct (check_symbols get l) as [ws r]. cbn [snd] in *.
    intros Hr. destruct (IH Hr) as (s' & Hs' & He). exists s'. split; [now right | auto].
  - intros [= <-]. exists s. split; [left | auto].
  - intros [= <-]. exists s. split; [left | auto].
Qed.

End ValidatorFacts.

(** The exception of the attribute read is none of the validators' own
    errors. *)
Lemma private_get_Absent (symbol : string) :
  private_get Absent symbol = Raise no_private_symbols.
Proof. reflexivity. Qed.

(** The data fetcher's validator on an instance of [AlpacaClient]. *)
Lemma fetcher_validate_AlpacaClient {Account : Type} (self : AlpacaClient.t Account)
    (symbols : list string) :
  AlpacaDataFetcher._validate_symbols (AlpacaClient.as_client self) symbols
  = ([], Raise match symbols with
               | [] => EmptyInputError
               | _ :: _ =>
                   match duplicate_symbols symbols with
                   | [] => no_private_symbols
                   | _ :: _ => DuplicateSymbolError (duplicate_symbols symbols)
                   end
               end).
Proof.
  unfold AlpacaDataFetcher._validate_symbols.
  destruct symbols as [|s l]; [reflexivity|]. cbn [length Nat.eqb].
  destruct (duplicate_symbols (s :: l)); [|reflexivity].
  cbn [AlpacaClient.as_client Client._AlpacaClient__symbols].
  now rewrite (check_symbols_raises_first _ s l _ (private_get_Absent s)).
Qed.

Section DataClientFacts.

Context {Account DataFrame : Type}.
Variable objects_to_df : list SdkAsset -> DataFrame.

(** Once the property has returned, a later read returns the same
    dictionary from the cache. *)
Lemma symbols_again (remote remote' : Py.outcome (list SdkAsset))
    (self self1 : AlpacaClient.t Account) (calls : list ApiCall)
    (d : gmap string SdkAsset) :
  AlpacaClient.symbols objects_to_df remote self = (self1, calls, Py.Return d) ->
  AlpacaClient.symbols objects_to_df remote' self1 = (self1, [], Py.Return d).
Proof.
  intros Hrun.
  assert (Hstate : is_Some (AlpacaClient._assets self1)
                   /\ AlpacaClient._symbols self1 = Some d).
  { revert Hrun. unfold AlpacaClient.symbols, AlpacaClient.assets.
    destruct (AlpacaClient._assets self) as [cached|] eqn:Ha.
    - rewrite Ha. destruct (AlpacaClient._symbols self) as [d0|] eqn:Hs.
      + intros [= <- _ <-]. rewrite Ha. eauto.
      + intros [= <- _ <-]. cbn. eauto.
    - destruct (Py.subscript (AlpacaClient.clients self) "trading"); [|discriminate].
      destruct remote as [fetched|e]; [|discriminate]. cbn.
      destruct (AlpacaClient._symbols self) as [d0|] eqn:Hs.
      + intros [= <- _ <-]. cbn. eauto.
      + intros [= <- _ <-]. cbn. eauto. }
  destruct Hstate as [[cached Ha] Hs].
  unfold AlpacaClient.symbols. now rewrite Ha, Hs.
Qed.

Variable remote : Py.outcome (list SdkAsset).

(** One iteration of the data client's loop on a dictionary in hand is
    one iteration of the loop that subscripts it. *)
Lemma client_check_symbols_cached (self1 : AlpacaClient.t Account)
    (d : gmap string SdkAsset) (symbols : list string) :
  AlpacaClient.symbols objects_to_df remote self1 = (self1, [], Py.Return d) ->
  AlpacaDataClient.check_symbols objects_to_df remote self1 symbols
  = (self1, [], check_symbols (subscript_symbols d) symbols).
Proof.
  intros Hd. induction symbols as [|s l IH]; [reflexivity|].
  cbn [AlpacaDataClient.check_symbols check_symbols]. rewrite Hd.
  cbn [Py.bind]. unfold Py.getitem, subscript_symbols, id.
  destruct (d !! s) as [a|]; [|reflexivity].
  destruct (tradable (asset_info a)); cbn [negb]; [|reflexivity].
  case_bool_decide; cbn [negb]; [|reflexivity].
  rewrite IH. now destruct (check_symbols _ l).
Qed.

Lemma client_check_symbols (self self1 : AlpacaClient.t Account)
    (calls : list ApiCall) (d : gmap string SdkAsset) (symbols : list string) :
  symbols <> [] ->
  AlpacaClient.symbols objects_to_df remote self = (self1, calls, Py.Return d) ->
  AlpacaDataClient.check_symbols objects_to_df remote self symbols
  = (self1, calls, check_symbols (subscript_symbols d) symbols).
Proof.
  intros Hne Hd. destruct symbols as [|s l]; [congruence|].
  cbn [AlpacaDataClient.check_symbols check_symbols]. rewrite Hd.
  cbn [Py.bind]. unfold Py.getitem, subscript_symbols, id.
  destruct (d !! s) as [a|]; [|reflexivity].
  destruct (tradable (asset_info a)); cbn [negb]; [|reflexivity].
  case_bool_decide; cbn [negb]; [|reflexivity].
  rewrite (client_check_symbols_cached self1 d l (symbols_again _ _ _ _ _ _ Hd)).
  rewrite app_nil_r. now destruct (check_symbols _ l).
Qed.

(** The data client's loop raises only what the property or the
    subscript raises, or its not-tradable or inactive error. *)
Lemma client_check_symbols_Raise (self : AlpacaClient.t Account)
    (symbols : list string) (e : Error) :
  snd (snd (AlpacaDataClient.check_symbols objects_to_df remote self symbols))
  = Raise e ->
  (exists x, e = PyError x)
  \/ exists s, s ∈ symbols /\ (e = NotTradableError s \/ e = InactiveSymbolError s).
Proof.
  revert self. induction symbols as [|s l IH]; intros self;
    cbn [AlpacaDataClient.check_symbols snd]; [discriminate|].
  destruct (AlpacaClient.symbols objects_to_df remote self) as [[self1 calls] r].
  destruct (Py.bind r _) as [a|x]; cbn [snd]; [|intros [= <-]; eauto].
  destruct (tradable (asset_info a)); cbn [negb snd];
    [|intros [= <-]; right; exists s; split; [left | auto]].
  case_bool_decide; cbn [negb snd];
    [|intros [= <-]; right; exists s; split; [left | auto]].
  specialize (IH self1).
  destruct (AlpacaDataClient.check_symbols objects_to_df remote self1 l)
    as [[self2 calls2] [ws r2]]. cbn [snd] in *.
  intros Hr. destruct (IH Hr) as [?|(s' & Hs' & He)]; [now left|].
  right. exists s'. split; [now right | exact He].
Qed.

(** The loop that subscripts a dictionary accepts a list of listed,
    tradable, active symbols and logs their warnings. *)
Lemma check_symbols_subscript_valid (d : gmap string SdkAsset)
    (symbols : list string) :
  Forall (valid_symbol (catalog_of d)) symbols ->
  check_symbols (subscript_symbols d) symbols
  = (warnings_of (catalog_of d) symbols, Ok tt).
Proof.
  induction 1 as [|s l (a & Ha & Ht & Hs) _ IH]; [reflexivity|].
  unfold catalog_of in Ha. rewrite lookup_fmap in Ha.
  destruct (d !! s) as [asset|] eqn:Hds; [|discriminate]. injection Ha as <-.
  cbn [check_symbols].
  replace (subscript_symbols d s) with (Ok (Some (asset_info asset)))
    by (unfold subscript_symbols; now rewrite Hds).
  rewrite Ht, bool_decide_eq_true_2 by exact Hs. cbn [negb]. rewrite IH.
  unfold warnings_of. cbn [flat_map].
  replace (catalog_of d !! s) with (Some (asset_info asset))
    by (unfold catalog_of; now rewrite lookup_fmap, Hds).
  reflexivity.
Qed.

End DataClientFacts.

Section ClaimedOutcomes.

Context {Account DataFrame : Type}.
Variable objects_to_df : list SdkAsset -> DataFrame.
Variable remote : Py.outcome (list SdkAsset).

(** The end of the data client's validator on an instance of
    [AlpacaClient]. *)
Lemma client_validate_after_loop (self self1 : AlpacaClient.t Account)
    (calls : list ApiCall) (warnings : list Warning) (symbols : list string) :
  symbols <> [] -> NoDup symbols ->
  AlpacaDataClient.check_symbols objects_to_df remote self symbols
  = (self1, calls, (warnings, Ok tt)) ->
  AlpacaDataClient._validate_symbols objects_to_df remote self symbols
  = (self1, calls, (warnings, Raise no_private_symbols)).
Proof.
  intros Hne Hnd Hloop. unfold AlpacaDataClient._validate_symbols.
  destruct symbols as [|s l]; [congruence|]. cbn [length Nat.eqb].
  rewrite (duplicate_symbols_NoDup _ Hnd), Hloop.
  cbn [AlpacaClient.as_client Client._AlpacaClient__symbols].
  now rewrite (common_asset_class_raises_first _ s l _ (private_get_Absent s)).
Qed.

(** C1. The claim fails on the code: on an instance of the repository's
    [AlpacaClient], a non-empty, duplicate-free list of symbols that
    the client lists as tradable and active gets no asset class and no
    mixed-class error. The data fetcher raises the [AttributeError] of
    [self.client._AlpacaClient__symbols] at its first lookup, before
    and after the client has fetched its assets; the data client runs
    its loop on [self.client.symbols], logs the warnings, and raises
    the same [AttributeError] where it builds the set of asset
    classes. *)
Theorem validate_symbols_raises_AttributeError (self self1 : AlpacaClient.t Account)
    (calls : list ApiCall) (d : gmap string SdkAsset) (symbols : list string) :
  symbols <> [] -> NoDup symbols ->
  AlpacaClient.symbols objects_to_df remote self = (self1, calls, Py.Return d) ->
  Forall (valid_symbol (catalog_of d)) symbols ->
  AlpacaDataFetcher._validate_symbols (AlpacaClient.as_client self) symbols
  = ([], Raise no_private_symbols)
  /\ AlpacaDataFetcher._validate_symbols (AlpacaClient.as_client self1) symbols
     = ([], Raise no_private_symbols)
  /\ AlpacaDataClient._validate_symbols objects_to_df remote self symbols
     = (self1, calls, (warnings_of (catalog_of d) symbols, Raise no_private_symbols)).
Proof.
  intros Hne Hnd Hd Hvalid.
  assert (Hfetcher : forall client : AlpacaClient.t Account,
            AlpacaDataFetcher._validate_symbols (AlpacaClient.as_client client) symbols
            = ([], Raise no_private_symbols)).
  { intros client. rewrite fetcher_validate_AlpacaClient.
    destruct symbols as [|s l]; [congruence|].
    now rewrite (duplicate_symbols_NoDup _ Hnd). }
  split; [apply Hfetcher|]. split; [apply Hfetcher|].
  apply client_validate_after_loop; [assumption..|].
  rewrite (client_check_symbols _ _ _ _ _ _ _ Hne Hd).
  now rewrite check_symbols_subscript_valid.
Qed.

(** The data fetcher's validator raises none of the errors of a single
    symbol on an instance of [AlpacaClient], and the data client's
    never raises its unknown-symbol error. *)
Lemma symbol_errors_never_raised (self : AlpacaClient.t Account)
    (symbols : list string) :
  (forall e,
     snd (AlpacaDataFetcher._validate_symbols (AlpacaClient.as_client self) symbols)
     = Raise e -> symbol_error e = false)
  /\ (forall s,
        snd (snd (AlpacaDataClient._validate_symbols objects_to_df remote self symbols))
        <> Raise (UnknownSymbolError s)).
Proof.
  split.
  - intros e. rewrite fetcher_validate_AlpacaClient. cbn [snd]. intros [= <-].
    destruct symbols; [reflexivity|]. now destruct (duplicate_symbols _).
  - intros s. unfold AlpacaDataClient._validate_symbols.
    destruct (length symbols =? 0)%nat; [discriminate|].
    destruct (duplicate_symbols symbols); [|discriminate].
    pose proof (client_check_symbols_Raise objects_to_df remote self symbols) as Hloop.
    destruct (AlpacaDataClient.check_symbols objects_to_df remote self symbols)
      as [[self1 calls] [ws [[]|e]]]; cbn [snd] in *.
    + cbn [AlpacaClient.as_client Client._AlpacaClient__symbols].
      destruct symbols as [|s0 l]; [discriminate|].
      now rewrite (common_asset_class_raises_first _ s0 l _ (private_get_Absent s0)).
    + intros [= ->].
      destruct (Hloop _ eq_refl) as [[x [=]]|(s' & _ & [[=]|[=]])].
Qed.

End ClaimedOutcomes.

Lemma validate_symbols_raises_AttributeError_witness :
  AlpacaDataFetcher._validate_symbols (AlpacaClient.as_client connected_client)
    ["MSFT"; "AAPL"] = ([], Raise no_private_symbols)
  /\ snd (AlpacaDataClient._validate_symbols (fun fetched => fetched)
            (Py.Return sample_listing) connected_client ["MSFT"; "AAPL"])
     = ([], Raise no_private_symbols).
Proof.
  destruct (validate_symbols_raises_AttributeError (fun fetched => fetched)
              (Py.Return sample_listing) connected_client _ _ _ ["MSFT"; "AAPL"]
              ltac:(discriminate) ltac:(decide_by_compute) eq_refl
              ltac:(repeat constructor; eexists;
                    (split; [vm_compute; reflexivity | split; reflexivity])))
    as (Hfetcher & _ & Hclient).
  split; [exact Hfetcher|]. rewrite Hclient. reflexivity.
Defined.

(** C2. The claim fails on the code: the client lists LEHM as neither
    tradable nor active and does not list ZZZ, yet the data fetcher
    raises the [AttributeError] of [self.client._AlpacaClient__symbols]
    for both, where the claim has [NotTradableError] and
    [UnknownSymbolError]. The data client, which reads
    [self.client.symbols], reports LEHM as not tradable and lets the
    [KeyError] of its subscript escape for ZZZ. *)
Theorem symbol_errors_not_reported :
  let client := AlpacaClient.as_client connected_client in
  let validate :=
    AlpacaDataClient._validate_symbols (fun fetched => fetched)
      (Py.Return sample_listing) connected_client in
  (exists asset, catalog_of (AlpacaClient.symbol_dict sample_listing) !! "LEHM"
                 = Some asset
     /\ tradable asset = false /\ status asset <> ACTIVE)
  /\ catalog_of (AlpacaClient.symbol_dict sample_listing) !! "ZZZ" = None
  /\ snd (AlpacaDataFetcher._validate_symbols client ["MSFT"; "LEHM"])
     = Raise no_private_symbols
  /\ snd (AlpacaDataFetcher._validate_symbols client ["MSFT"; "ZZZ"])
     = Raise no_private_symbols
  /\ snd (snd (validate ["MSFT"; "LEHM"])) = Raise (NotTradableError "LEHM")
  /\ snd (snd (validate ["MSFT"; "ZZZ"])) = Raise (PyError (Py.KeyError "ZZZ")).
Proof.
  cbv zeta. split.
  { eexists. split; [vm_compute; reflexivity|]. split; [reflexivity | discriminate]. }
  repeat split; vm_compute; reflexivity.
Qed.

(** ** The session grid *)

Lemma ceil_div_spec (a b : Z) :
  0 < b -> (ceil_div a b - 1) * b < a <= ceil_div a b * b.
Proof.
  intros Hb. unfold ceil_div.
  pose proof (Z.div_mod (a + b - 1) b ltac:(lia)) as Hdm.
  pose proof (Z.mod_pos_bound (a + b - 1) b Hb) as Hmod.
  nia.
Qed.

Lemma ceil_div_nonpos (a b : Z) : 0 < b -> a <= 0 -> ceil_div a b <= 0.
Proof.
  intros Hb Ha. pose proof (ceil_div_spec a b Hb). nia.
Qed.

Lemma ceil_div_step (a b : Z) : 0 < b -> ceil_div a b = 1 + ceil_div (a - b) b.
Proof.
  intros Hb. unfold ceil_div.
  replace (a + b - 1) with ((a - b + b - 1) + 1 * b) by lia.
  rewrite Z.div_add by lia. lia.
Qed.

Lemma grid_from_length (fuel : nat) (t close step : Z) :
  0 < step -> close - t <= Z.of_nat fuel ->
  length (DataProcessor.grid_from fuel t close step)
    = Z.to_nat (ceil_div (close - t) step).
Proof.
  intros Hstep. revert t.
  induction fuel as [|fuel IH]; intros t Hfuel; simpl.
  - pose proof (ceil_div_nonpos (close - t) step Hstep ltac:(lia)). lia.
  - destruct (Z.ltb_spec t close) as [Hlt | Hge].
    + simpl. rewrite IH by lia.
      rewrite (ceil_div_step (close - t) step Hstep).
      replace (close - t - step) with (close - (t + step)) by lia.
      pose proof (ceil_div_spec (close - (t + step)) step Hstep). 
      assert (0 <= ceil_div (close - (t + step)) step) by nia.
      lia.
    + pose proof (ceil_div_nonpos (close - t) step Hstep ltac:(lia)). simpl. lia.
Qed.

Lemma grid_from_lookup (fuel : nat) (t close step : Z) (i : nat) (x : Z) :
  DataProcessor.grid_from fuel t close step !! i = Some x ->
  x = t + Z.of_nat i * step /\ x < close.
Proof.
  revert t i. induction fuel as [|fuel IH]; intros t i; simpl; [discriminate|].
  destruct (Z.ltb_spec t close) as [Hlt | Hge]; [|discriminate].
  destruct i as [|i]; simpl.
  - intros [= <-]. lia.
  - intros H. apply IH in H. lia.
Qed.

(** The grid of a session has [ceil((close - open) / step)] points. *)
Lemma session_grid_length (open close step : Z) :
  0 < step ->
  length (DataProcessor.session_grid open close step)
    = Z.to_nat (ceil_div (close - open) step).
Proof.
  intros Hstep. unfold DataProcessor.session_grid.
  apply grid_from_length; lia.
Qed.

(** Its points are [open + i * step], all before [close]. *)
Lemma session_grid_lookup (open close step : Z) (i : nat) (x : Z) :
  DataProcessor.session_grid open close step !! i = Some x ->
  x = open + Z.of_nat i * step /\ x < close.
Proof. apply grid_from_lookup. Qed.

Lemma accepted_resolution_step (resolution : string) :
  AlpacaDataFetcher._validate_resolution resolution = Ok tt ->
  0 < DataProcessor.resolution_seconds resolution.
Proof.
  unfold AlpacaDataFetcher._validate_resolution, DataProcessor.resolution_seconds.
  case_bool_decide as Hin; [|discriminate]. intros _.
  unfold AlpacaDataFetcher.accepted_resolutions in Hin.
  repeat (apply elem_of_cons in Hin as [-> | Hin]; [vm_compute; reflexivity|]).
  inversion Hin.
Qed.

(** ** Forward fill *)

Section ForwardFillFacts.
Context {A : Type}.

Lemma ffill_from_length (last : option A) (l : list (option A)) :
  length (DataProcessor.ffill_from last l) = length l.
Proof.
  revert last. induction l as [|x l IH]; intros last; simpl; [reflexivity|].
  now rewrite IH.
Qed.

(** An observed point keeps its value. *)
Lemma ffill_from_observed (last : option A) (l : list (option A)) (i : nat) (v : A) :
  l !! i = Some (Some v) ->
  DataProcessor.ffill_from last l !! i = Some (Some v).
Proof.
  revert last i. induction l as [|x l IH]; intros last i; [discriminate|].
  destruct i as [|i]; simpl.
  - now intros [= ->].
  - apply IH.
Qed.

(** Before the first observation, the points carry the initial value. *)
Lemma ffill_from_leading (last : option A) (l : list (option A)) (i : nat) :
  (i < length l)%nat ->
  (forall k, (k <= i)%nat -> l !! k = Some None) ->
  DataProcessor.ffill_from last l !! i = Some last.
Proof.
  revert last i. induction l as [|x l IH]; intros last i Hlen Hnone; simpl in *; [lia|].
  pose proof (Hnone 0%nat ltac:(lia)) as H0. simpl in H0. injection H0 as ->.
  destruct i as [|i]; simpl; [reflexivity|].
  apply IH; [lia|]. intros k Hk. apply (Hnone (S k)). lia.
Qed.

(** A point without observation carries the most recent prior one. *)
Lemma ffill_from_prior (last : option A) (l : list (option A)) (i j : nat) (v : A) :
  (j < i)%nat -> (i < length l)%nat ->
  l !! j = Some (Some v) ->
  (forall k, (j < k <= i)%nat -> l !! k = Some None) ->
  DataProcessor.ffill_from last l !! i = Some (Some v).
Proof.
  revert last i j. induction l as [|x l IH]; intros last i j Hji Hlen Hj Hgap;
    simpl in *; [lia|].
  destruct i as [|i]; [lia|]. simpl.
  destruct j as [|j].
  - simpl in Hj. injection Hj as ->.
    apply ffill_from_leading; [lia|].
    intros k Hk. apply (Hgap (S k)). lia.
  - apply (IH _ i j); [lia | lia | exact Hj |].
    intros k Hk. apply (Hgap (S k)). lia.
Qed.

End ForwardFillFacts.

Lemma lookup_map {A B : Type} (f : A -> B) (l : list A) (i : nat) :
  map f l !! i = f <$> (l !! i).
Proof. exact (list_lookup_fmap f l i). Qed.

(** C4. Against the forward fill as the specification describes it: a
    grid point with an observation keeps it, a grid point without one
    receives the most recent prior observation of the session, and a
    grid point with no observation at or before it stays missing. *)
Theorem forward_fill_grid_points {V : Type} (width : nat) (data : list (SymbolRow V))
    (open close : Z) (resolution : string) (tr : DataProcessor.DensityTracker)
    (i : nat) (t : Z) :
  let grid :=
    DataProcessor.session_grid open close (DataProcessor.resolution_seconds resolution) in
  let filled :=
    snd (DataProcessor.reindex_and_forward_fill width data open close resolution tr) in
  grid !! i = Some t ->
  (forall v, DataProcessor.observation data t = Some v -> filled !! i = Some (Some v))
  /\ (DataProcessor.observation data t = None ->
      forall j tj v, (j < i)%nat -> grid !! j = Some tj ->
        DataProcessor.observation data tj = Some v ->
        (forall k tk, (j < k < i)%nat -> grid !! k = Some tk ->
           DataProcessor.observation data tk = None) ->
        filled !! i = Some (Some v))
  /\ ((forall k tk, (k <= i)%nat -> grid !! k = Some tk ->
         DataProcessor.observation data tk = None) ->
      filled !! i = Some None).
Proof.
  intros grid filled Hi.
  assert (Hlen : (i < length grid)%nat) by (apply lookup_lt_is_Some; eauto).
  subst filled. unfold DataProcessor.reindex_and_forward_fill. cbn [snd].
  fold grid. unfold DataProcessor.ffill, DataProcessor.reindex.
  split; [|split].
  - intros v Hv. apply ffill_from_observed. now rewrite lookup_map, Hi, <- Hv.
  - intros Hnone j tj v Hji Hj Hv Hgap.
    apply (ffill_from_prior _ _ i j); [assumption | now rewrite length_map | |].
    + now rewrite lookup_map, Hj, <- Hv.
    + intros k Hk. rewrite lookup_map.
      destruct (decide (k = i)) as [-> | Hne].
      * now rewrite Hi, <- Hnone.
      * destruct (lookup_lt_is_Some_2 grid k ltac:(lia)) as [tk Htk].
        rewrite Htk. simpl. f_equal. apply (Hgap k tk); [lia | assumption].
  - intros Hlead. apply ffill_from_leading; [now rewrite length_map|].
    intros k Hk. rewrite lookup_map.
    destruct (lookup_lt_is_Some_2 grid k ltac:(lia)) as [tk Htk].
    rewrite Htk. simpl. f_equal. now apply (Hlead k tk).
Qed.

Lemma forward_fill_grid_points_witness :
  let filled :=
    snd (DataProcessor.reindex_and_forward_fill 1 sample_AAPL_rows 0 1200 "5Min"
           DataProcessor.initial_tracker) in
  filled !! 2%nat = Some (Some [150]) /\ filled !! 0%nat = Some None.
Proof.
  split.
  - refine (proj1 (proj2 (forward_fill_grid_points 1 sample_AAPL_rows 0 1200 "5Min"
              DataProcessor.initial_tracker 2 600 _)) _ 1%nat 300 [150] _ _ _ _).
    + reflexivity.
    + reflexivity.
    + lia.
    + reflexivity.
    + reflexivity.
    + intros k tk Hk. lia.
  - refine (proj2 (proj2 (forward_fill_grid_points 1 sample_AAPL_rows 0 1200 "5Min"
              DataProcessor.initial_tracker 0 0 _)) _).
    + reflexivity.
    + intros k tk Hk. assert (k = 0%nat) as -> by lia. intros [= <-]. reflexivity.
Defined.

(** ** Session alignment *)

Section SortFacts.
Context {A : Type} (leb : A -> A -> bool).
Hypothesis leb_total : forall x y, leb x y = true \/ leb y x = true.

Lemma insert_sorted_HdRel (a x : A) (l : list A) :
  leb a x = true -> HdRel (fun u v => leb u v = true) a l ->
  HdRel (fun u v => leb u v = true) a (insert_sorted leb x l).
Proof.
  intros Hax Hal. destruct l as [|y l]; simpl.
  - now constructor.
  - inversion Hal; subst. destruct (leb x y); now constructor.
Qed.

Lemma insert_sorted_Sorted (x : A) (l : list A) :
  Sorted (fun u v => leb u v = true) l ->
  Sorted (fun u v => leb u v = true) (insert_sorted leb x l).
Proof.
  induction 1 as [|y l Hs IH Hhd]; simpl.
  - repeat constructor.
  - destruct (leb x y) eqn:E.
    + constructor; [now constructor | now constructor].
    + constructor; [assumption|].
      apply insert_sorted_HdRel; [|assumption].
      destruct (leb_total x y); congruence.
Qed.

Lemma sort_by_Sorted (l : list A) :
  Sorted (fun u v => leb u v = true) (sort_by leb l).
Proof.
  induction l as [|x l IH]; simpl; [constructor|].
  now apply insert_sorted_Sorted.
Qed.

Lemma insert_sorted_elem (x y : A) (l : list A) :
  y ∈ insert_sorted leb x l <-> y = x \/ y ∈ l.
Proof.
  induction l as [|z l IH]; simpl.
  - rewrite list_elem_of_singleton, elem_of_nil. tauto.
  - destruct (leb x z); rewrite !elem_of_cons; [tauto|].
    rewrite IH. tauto.
Qed.

Lemma sort_by_elem (y : A) (l : list A) : y ∈ sort_by leb l <-> y ∈ l.
Proof.
  induction l as [|x l IH]; simpl; [reflexivity|].
  rewrite insert_sorted_elem, elem_of_cons, IH. tauto.
Qed.

End SortFacts.

Section AlignFacts.
Context {V : Type}.

Lemma process_groups_keys (width : nat) (groups : list (string * list (SymbolRow V)))
    (market_open market_close : Z) (resolution : string)
    (tr : DataProcessor.DensityTracker) :
  map fst (snd (AlpacaDataFetcher.process_groups width groups market_open market_close
                  resolution tr))
    = map fst groups.
Proof.
  revert tr. induction groups as [|[symbol group] rest IH]; intros tr; simpl;
    [reflexivity|].
  specialize (IH (DataProcessor.update_density
    (N.of_nat (DataProcessor.count_observed
       (DataProcessor.reindex group
          (DataProcessor.session_grid market_open market_close
             (DataProcessor.resolution_seconds resolution))) * width))
    (N.of_nat (length
       (DataProcessor.reindex group
          (DataProcessor.session_grid market_open market_close
             (DataProcessor.resolution_seconds resolution))) * width)) tr)).
  destruct (AlpacaDataFetcher.process_groups width rest market_open market_close
              resolution _) as [tr2 processed_groups].
  simpl in *. now rewrite IH.
Qed.

Lemma process_groups_rows (width : nat) (groups : list (string * list (SymbolRow V)))
    (market_open market_close : Z) (resolution : string)
    (tr : DataProcessor.DensityTracker) :
  Forall (fun block =>
            length (snd block)
              = length (DataProcessor.session_grid market_open market_close
                          (DataProcessor.resolution_seconds resolution)))
    (snd (AlpacaDataFetcher.process_groups width groups market_open market_close
            resolution tr)).
Proof.
  revert tr. induction groups as [|[symbol group] rest IH]; intros tr; simpl;
    [constructor|].
  specialize (IH (DataProcessor.update_density
    (N.of_nat (DataProcessor.count_observed
       (DataProcessor.reindex group
          (DataProcessor.session_grid market_open market_close
             (DataProcessor.resolution_seconds resolution))) * width))
    (N.of_nat (length
       (DataProcessor.reindex group
          (DataProcessor.session_grid market_open market_close
             (DataProcessor.resolution_seconds resolution))) * width)) tr)).
  destruct (AlpacaDataFetcher.process_groups width rest market_open market_close
              resolution _) as [tr2 processed_groups].
  simpl in *. constructor; [|assumption]. simpl.
  unfold DataProcessor.ffill, DataProcessor.reindex.
  now rewrite ffill_from_length, length_map.
Qed.

(** What a successful alignment returns. *)
Lemma align_session_Ok (symbols : list string) (raw_dataset : RawDataset V)
    (market_open market_close : Z) (resolution : string) (st st' : State V)
    (blocks : list (string * list (option (list V)))) :
  AlpacaDataFetcher.align_session symbols raw_dataset market_open market_close
    resolution st = (st', Ok blocks) ->
  missing_symbols raw_dataset symbols = ∅
  /\ blocks = snd (AlpacaDataFetcher.process_groups (length (df_columns raw_dataset))
                     (groupby_symbol (reindex_to_symbols raw_dataset symbols))
                     market_open market_close resolution (tracker st)).
Proof.
  unfold AlpacaDataFetcher.align_session. case_bool_decide as Hm; [|discriminate].
  unfold with_tracker.
  destruct (AlpacaDataFetcher.process_groups _ _ _ _ _ _) as [tr processed].
  intros [= _ <-]. split; [assumption | reflexivity].
Qed.

(** Every block of an aligned session has
    [ceil((close - open) / resolution)] rows. *)
Lemma align_session_rows (symbols : list string) (raw_dataset : RawDataset V)
    (market_open market_close : Z) (resolution : string) (st st' : State V)
    (blocks : list (string * list (option (list V)))) :
  AlpacaDataFetcher._validate_resolution resolution = Ok tt ->
  AlpacaDataFetcher.align_session symbols raw_dataset market_open market_close
    resolution st = (st', Ok blocks) ->
  Forall (fun block =>
            length (snd block)
              = Z.to_nat (ceil_div (market_close - market_open)
                            (DataProcessor.resolution_seconds resolution)))
    blocks.
Proof.
  intros Hres Hrun. apply align_session_Ok in Hrun as [_ ->].
  rewrite <- session_grid_length by now apply accepted_resolution_step.
  apply process_groups_rows.
Qed.

(** The blocks of an aligned session come in ascending order of their
    symbols, whatever the order of the request. *)
Lemma align_session_order (symbols : list string) (raw_dataset : RawDataset V)
    (market_open market_close : Z) (resolution : string) (st st' : State V)
    (blocks : list (string * list (option (list V)))) :
  AlpacaDataFetcher.align_session symbols raw_dataset market_open market_close
    resolution st = (st', Ok blocks) ->
  Sorted (fun s1 s2 => String.leb s1 s2 = true) (map fst blocks).
Proof.
  intros Hrun. apply align_session_Ok in Hrun as [_ ->].
  rewrite process_groups_keys. unfold groupby_symbol.
  rewrite map_map. simpl. rewrite map_id.
  apply sort_by_Sorted. apply String.leb_total.
Qed.

End AlignFacts.

(** C3 at a request that is not in ascending order: the blocks have the
    rows the grid asks for, but they come in sorted order, AAPL before
    MSFT, and not in the order of the request. *)
Theorem aligned_blocks_not_in_requested_order :
  let symbols := ["MSFT"; "AAPL"] in
  exists st blocks,
    AlpacaDataFetcher.align_session symbols Sample.sample_frame 0 1200 "5Min"
      Sample.empty_state = (st, Ok blocks)
    /\ Forall (fun block =>
                 length (snd block) = Z.to_nat (ceil_div (1200 - 0) 300)) blocks
    /\ map fst blocks = ["AAPL"; "MSFT"]
    /\ map fst blocks <> symbols.
Proof.
  eexists _, _. split; [vm_compute; reflexivity|].
  split; [repeat constructor|]. split; [reflexivity | discriminate].
Qed.

(** The same request through the whole pipeline: the stored descriptor
    lists MSFT before AAPL, while the first column of the stored matrix
    is the block of AAPL (missing at the open) and the second the block
    of MSFT. *)
Lemma stored_columns_not_in_requested_order :
  let run :=
    AlpacaDataFetcher.download_features_to_hdf5 (Sample.sample_env Sample.sample_frame)
      "dataset.h5" "bars" BAR ["MSFT"; "AAPL"] "5Min" 0 1 Sample.empty_state in
  exists dataset,
    DatasetIO.read "dataset.h5" "bars" (store (fst run)) = Some dataset
    /\ md_symbols (metadata dataset) = ["MSFT"; "AAPL"]
    /\ matrix dataset = [[None; Some 310]; [Some 150; Some 310];
                         [Some 150; Some 312]; [Some 152; Some 313]].
Proof.
  eexists. split; [vm_compute; reflexivity|]. split; reflexivity.
Qed.

(** ** The check for missing symbols *)

Section MissingSymbols.
Context {V : Type}.

Lemma missing_symbols_elem (raw_dataset : RawDataset V) (symbols : list string)
    (s : string) :
  s ∈ missing_symbols raw_dataset symbols
  <-> (has_records raw_dataset s /\ s ∉ symbols)
      \/ (s ∈ symbols /\ ~ has_records raw_dataset s).
Proof.
  unfold missing_symbols, symmetric_difference, dataset_symbols, has_records.
  rewrite elem_of_union, !elem_of_difference, !elem_of_list_to_set,
    elem_of_remove_dups.
  reflexivity.
Qed.

Lemma missing_symbols_nonempty (raw_dataset : RawDataset V) (symbols : list string) :
  missing_symbols raw_dataset symbols <> ∅
  <-> (exists s, s ∈ symbols /\ ~ has_records raw_dataset s)
      \/ (exists s, has_records raw_dataset s /\ s ∉ symbols).
Proof.
  split.
  - intros Hne. apply set_choose_L in Hne as [s Hs].
    apply missing_symbols_elem in Hs as [H | H]; [right | left]; eauto.
  - intros H Hempty.
    assert (Hin : exists s, s ∈ missing_symbols raw_dataset symbols).
    { destruct H as [(s & H1 & H2) | (s & H1 & H2)]; exists s;
        apply missing_symbols_elem; tauto. }
    destruct Hin as [s Hs]. rewrite Hempty in Hs. now apply not_elem_of_empty in Hs.
Qed.

Lemma align_session_raises (symbols : list string) (raw_dataset : RawDataset V)
    (market_open market_close : Z) (resolution : string) (st : State V) :
  missing_symbols raw_dataset symbols <> ∅ ->
  AlpacaDataFetcher.align_session symbols raw_dataset market_open market_close
    resolution st
  = (st, Raise (MissingSymbolDataError (missing_symbols raw_dataset symbols)
                  market_open market_close)).
Proof.
  intros Hne. unfold AlpacaDataFetcher.align_session.
  now rewrite bool_decide_eq_false_2.
Qed.

Lemma align_session_returns (symbols : list string) (raw_dataset : RawDataset V)
    (market_open market_close : Z) (resolution : string) (st : State V) :
  missing_symbols raw_dataset symbols = ∅ ->
  exists st' blocks,
    AlpacaDataFetcher.align_session symbols raw_dataset market_open market_close
      resolution st = (st', Ok blocks).
Proof.
  intros Hempty. unfold AlpacaDataFetcher.align_session.
  rewrite bool_decide_eq_true_2 by assumption. unfold with_tracker.
  destruct (AlpacaDataFetcher.process_groups _ _ _ _ _ _) as [tr processed].
  eauto.
Qed.

(** C5 (as amended). The alignment of a session fails with
    [MissingSymbolDataError] exactly when the symbols of the returned
    rows are not the requested symbols: some requested symbol has no
    row, or some returned symbol was not requested. When every
    requested symbol has a row and every returned symbol was requested,
    the alignment returns. *)
Theorem align_session_missing_iff (symbols : list string) (raw_dataset : RawDataset V)
    (market_open market_close : Z) (resolution : string) (st : State V) :
  ((exists st' missing,
      AlpacaDataFetcher.align_session symbols raw_dataset market_open market_close
        resolution st
      = (st', Raise (MissingSymbolDataError missing market_open market_close)))
   <-> (exists s, s ∈ symbols /\ ~ has_records raw_dataset s)
       \/ (exists s, has_records raw_dataset s /\ s ∉ symbols))
  /\ ((forall s, s ∈ symbols <-> has_records raw_dataset s) ->
      exists st' blocks,
        AlpacaDataFetcher.align_session symbols raw_dataset market_open market_close
          resolution st = (st', Ok blocks)).
Proof.
  split; [split|].
  - intros (st' & missing & Hrun).
    apply missing_symbols_nonempty. intros Hempty.
    destruct (align_session_returns symbols raw_dataset market_open market_close
                resolution st Hempty) as (st2 & blocks & Hok).
    congruence.
  - intros H. apply missing_symbols_nonempty in H.
    eexists _, _. now apply align_session_raises.
  - intros Hsame. apply align_session_returns.
    destruct (decide (missing_symbols raw_dataset symbols = ∅)) as [|Hne];
      [assumption|].
    apply missing_symbols_nonempty in Hne as [(s & H1 & H2) | (s & H1 & H2)];
      exfalso; apply H2; now apply Hsame.
Qed.

(** C9. A returned row of a symbol that was not requested makes the
    alignment fail with the missing-symbol error, whether or not the
    requested symbols are all present. *)
Theorem unrequested_symbol_fails (symbols : list string) (raw_dataset : RawDataset V)
    (market_open market_close : Z) (resolution : string) (st : State V) (s : string) :
  has_records raw_dataset s -> s ∉ symbols ->
  s ∈ missing_symbols raw_dataset symbols
  /\ AlpacaDataFetcher.align_session symbols raw_dataset market_open market_close
       resolution st
     = (st, Raise (MissingSymbolDataError (missing_symbols raw_dataset symbols)
                     market_open market_close)).
Proof.
  intros Hrec Hnot.
  assert (Hin : s ∈ missing_symbols raw_dataset symbols)
    by (apply missing_symbols_elem; tauto).
  split; [assumption|]. apply align_session_raises.
  intros Hempty. rewrite Hempty in Hin. now apply not_elem_of_empty in Hin.
Qed.

End MissingSymbols.

(** C5 as stated fails: every requested symbol has rows, the provider
    also returned GOOG, and the alignment raises
    [MissingSymbolDataError]. *)
Lemma extra_symbol_raises_missing :
  Forall (has_records Sample.frame_with_extra_symbol) ["MSFT"; "AAPL"]
  /\ snd (AlpacaDataFetcher.align_session ["MSFT"; "AAPL"]
            Sample.frame_with_extra_symbol 0 1200 "5Min" Sample.empty_state)
     = Raise (MissingSymbolDataError {["GOOG"]} 0 1200).
Proof.
  split.
  - repeat constructor; unfold has_records; decide_by_compute.
  - vm_compute. reflexivity.
Qed.

Lemma align_session_missing_iff_witness :
  (exists st' missing,
     AlpacaDataFetcher.align_session ["MSFT"; "AAPL"; "GOOG"] Sample.sample_frame
       0 1200 "5Min" Sample.empty_state
     = (st', Raise (MissingSymbolDataError missing 0 1200)))
  /\ (exists st' blocks,
        AlpacaDataFetcher.align_session ["MSFT"; "AAPL"] Sample.sample_frame
          0 1200 "5Min" Sample.empty_state = (st', Ok blocks)).
Proof.
  split.
  - apply (proj1 (align_session_missing_iff ["MSFT"; "AAPL"; "GOOG"]
                    Sample.sample_frame 0 1200 "5Min" Sample.empty_state)).
    left. exists "GOOG". split; unfold has_records; decide_by_compute.
  - apply (proj2 (align_session_missing_iff ["MSFT"; "AAPL"]
                    Sample.sample_frame 0 1200 "5Min" Sample.empty_state)).
    intros s. unfold has_records.
    change (map rec_symbol (df_rows Sample.sample_frame))
      with ["MSFT"; "MSFT"; "MSFT"; "AAPL"; "AAPL"].
    rewrite !elem_of_cons, !elem_of_nil. tauto.
Defined.

Lemma unrequested_symbol_fails_witness :
  Forall (has_records Sample.frame_with_extra_symbol) ["MSFT"; "AAPL"]
  /\ "GOOG" ∈ missing_symbols Sample.frame_with_extra_symbol ["MSFT"; "AAPL"]
  /\ AlpacaDataFetcher.align_session ["MSFT"; "AAPL"] Sample.frame_with_extra_symbol
       0 1200 "5Min" Sample.empty_state
     = (Sample.empty_state,
        Raise (MissingSymbolDataError
                 (missing_symbols Sample.frame_with_extra_symbol ["MSFT"; "AAPL"])
                 0 1200)).
Proof.
  split.
  - repeat constructor; unfold has_records; decide_by_compute.
  - apply (unrequested_symbol_fails ["MSFT"; "AAPL"] Sample.frame_with_extra_symbol
             0 1200 "5Min" Sample.empty_state "GOOG").
    + unfold has_records. decide_by_compute.
    + decide_by_compute.
Defined.

(** ** Order of validation and fetching *)

Section PipelineFacts.
Context {V : Type}.

Lemma process_session_error (env : Env V) (file_path target_dataset_name : string)
    (dataset_type : DatasetType) (symbols : list string) (asset_class : AssetClass)
    (resolution : string) (session : Z * Z) (st st' : State V) (e : Error) :
  AlpacaDataFetcher.process_session env file_path target_dataset_name dataset_type
    symbols asset_class resolution session st = (st', Raise e) ->
  validation_error e = false.
Proof.
  destruct session as [market_open market_close].
  unfold AlpacaDataFetcher.process_session, AlpacaDataFetcher.download_raw_dataset,
    bind, lift, record_fetch.
  destruct (to_timeframe env resolution) as [timeframe|]; cbn [ret raise];
    [|now intros [= _ <-]].
  destruct (AlpacaDataFetcher.get_downloader_and_request _ _ _)
    as [[downloader request]|]; cbn [ret raise];
    [|now intros [= _ <-]].
  destruct (provider env _) as [raw_dataset|]; cbn [ret raise];
    [|now intros [= _ <-]].
  unfold AlpacaDataFetcher.align_session.
  case_bool_decide; cbn [raise]; [|now intros [= _ <-]].
  unfold with_tracker.
  destruct (AlpacaDataFetcher.process_groups _ _ _ _ _ _) as [tr processed].
  unfold with_store, DatasetIO.write_to_hdf5. cbn [store].
  destruct (_ !! _) as [dataset|]; [|discriminate].
  destruct (DatasetIO.compatible _ _); [discriminate|].
  now intros [= _ <-].
Qed.

Lemma process_schedule_error (env : Env V) (file_path target_dataset_name : string)
    (dataset_type : DatasetType) (symbols : list string) (asset_class : AssetClass)
    (resolution : string) (schedule : list (Z * Z)) (st st' : State V) (e : Error) :
  AlpacaDataFetcher.process_schedule env file_path target_dataset_name dataset_type
    symbols asset_class resolution schedule st = (st', Raise e) ->
  validation_error e = false.
Proof.
  revert st. induction schedule as [|session rest IH]; intros st; simpl.
  - discriminate.
  - unfold bind at 1.
    destruct (AlpacaDataFetcher.process_session _ _ _ _ _ _ _ _ _)
      as [st1 [[]|e1]] eqn:Hs.
    + apply IH.
    + intros [= _ <-]. eapply process_session_error. exact Hs.
Qed.

(** C6. A run that ends in a failure of input validation has issued no
    call to the provider and has left store, density tracker and
    progress output as they were. *)
Theorem validation_errors_before_fetch (env : Env V)
    (file_path target_dataset_name : string) (dataset_type : DatasetType)
    (symbols : list string) (resolution : string) (start_date end_date : Z)
    (st st' : State V) (e : Error) :
  AlpacaDataFetcher.download_features_to_hdf5 env file_path target_dataset_name
    dataset_type symbols resolution start_date end_date st = (st', Raise e) ->
  validation_error e = true ->
  fetches st' = fetches st /\ store st' = store st /\ tracker st' = tracker st
  /\ progress st' = progress st.
Proof.
  unfold AlpacaDataFetcher.download_features_to_hdf5.
  destruct (validate_path env file_path); cbn [negb raise];
    [|intros [= _ <-]; discriminate].
  destruct (AlpacaDataFetcher._validate_symbols (client env) symbols)
    as [warnings [asset_class|e1]]; unfold bind at 1, log_warnings; cbn [raise].
  - destruct (AlpacaDataFetcher._validate_resolution resolution) as [[]|e2];
      cbn [raise].
    + destruct (length (get_schedule env asset_class start_date end_date) =? 0)%nat;
        cbn [raise].
      * intros [= <- _] _. repeat split.
      * unfold bind.
        destruct (AlpacaDataFetcher.process_schedule _ _ _ _ _ _ _ _ _)
          as [st1 [[]|e3]] eqn:Hloop; cbn [ret].
        -- discriminate.
        -- intros [= _ <-] He. apply process_schedule_error in Hloop. congruence.
    + intros [= <- _] _. repeat split.
  - intros [= <- _] _. repeat split.
Qed.

(** An input that fails a check makes the run fail with the error of
    that check. *)
Lemma invalid_input_raises (env : Env V) (file_path target_dataset_name : string)
    (dataset_type : DatasetType) (symbols : list string) (resolution : string)
    (start_date end_date : Z) (st : State V) :
  validate_path env file_path = true ->
  let run :=
    AlpacaDataFetcher.download_features_to_hdf5 env file_path target_dataset_name
      dataset_type symbols resolution start_date end_date st in
  match snd (AlpacaDataFetcher._validate_symbols (client env) symbols) with
  | Raise e => snd run = Raise e
  | Ok asset_class =>
      match AlpacaDataFetcher._validate_resolution resolution with
      | Raise e => snd run = Raise e
      | Ok _ =>
          get_schedule env asset_class start_date end_date = [] ->
          snd run = Raise EmptyScheduleError
      end
  end.
Proof.
  intros Hpath run. subst run. unfold AlpacaDataFetcher.download_features_to_hdf5.
  rewrite Hpath. cbn [negb].
  destruct (AlpacaDataFetcher._validate_symbols (client env) symbols)
    as [warnings [asset_class|e1]]; unfold bind at 1, log_warnings; cbn [raise snd];
    [|reflexivity].
  destruct (AlpacaDataFetcher._validate_resolution resolution) as [[]|e2];
    cbn [raise snd]; [|reflexivity].
  intros Hempty. now rewrite Hempty.
Qed.

(** C10. A run that completes returns [None]. *)
Theorem download_features_returns_None (env : Env V)
    (file_path target_dataset_name : string) (dataset_type : DatasetType)
    (symbols : list string) (resolution : string) (start_date end_date : Z)
    (st st' : State V) (r : option DatasetMetadata) :
  AlpacaDataFetcher.download_features_to_hdf5 env file_path target_dataset_name
    dataset_type symbols resolution start_date end_date st = (st', Ok r) ->
  r = None.
Proof.
  unfold AlpacaDataFetcher.download_features_to_hdf5.
  destruct (validate_path env file_path); cbn [negb raise]; [|discriminate].
  destruct (AlpacaDataFetcher._validate_symbols (client env) symbols)
    as [warnings [asset_class|e1]]; unfold bind at 1, log_warnings; cbn [raise];
    [|discriminate].
  destruct (AlpacaDataFetcher._validate_resolution resolution) as [[]|e2];
    cbn [raise]; [|discriminate].
  destruct (length (get_schedule env asset_class start_date end_date) =? 0)%nat;
    cbn [raise]; [discriminate|].
  unfold bind.
  destruct (AlpacaDataFetcher.process_schedule _ _ _ _ _ _ _ _ _)
    as [st1 [[]|e3]]; cbn [ret]; [|discriminate].
  now intros [= _ <-].
Qed.

End PipelineFacts.

Lemma validation_errors_before_fetch_witness :
  let run :=
    AlpacaDataFetcher.download_features_to_hdf5 (Sample.sample_env Sample.sample_frame)
      "dataset.h5" "bars" BAR ["MSFT"; "BTC/USD"] "5Min" 0 1 Sample.empty_state in
  snd run = Raise MixedAssetClassError
  /\ warning_log (fst run) = [NotEasyToBorrow "BTC/USD"]
  /\ fetches (fst run) = [] /\ store (fst run) = ∅
  /\ tracker (fst run) = DataProcessor.initial_tracker
  /\ progress (fst run) = [].
Proof.
  split; [vm_compute; reflexivity|]. split; [vm_compute; reflexivity|].
  eapply (validation_errors_before_fetch (Sample.sample_env Sample.sample_frame)
            "dataset.h5" "bars" BAR ["MSFT"; "BTC/USD"] "5Min" 0 1 Sample.empty_state
            _ MixedAssetClassError).
  - vm_compute. reflexivity.
  - reflexivity.
Defined.

Lemma download_features_returns_None_witness :
  let run :=
    AlpacaDataFetcher.download_features_to_hdf5 (Sample.sample_env Sample.sample_frame)
      "dataset.h5" "bars" BAR ["AAPL"; "MSFT"] "5Min" 0 1 Sample.empty_state in
  length (fetches (fst run)) = 1%nat /\ snd run = Ok None.
Proof.
  split; [vm_compute; reflexivity|].
  assert (H : exists st' r,
    AlpacaDataFetcher.download_features_to_hdf5 (Sample.sample_env Sample.sample_frame)
      "dataset.h5" "bars" BAR ["AAPL"; "MSFT"] "5Min" 0 1 Sample.empty_state
    = (st', Ok r)) by (eexists _, _; vm_compute; reflexivity).
  destruct H as (st' & r & Hrun). cbv zeta. rewrite Hrun. cbn [snd]. f_equal.
  exact (download_features_returns_None _ _ _ _ _ _ _ _ _ _ _ Hrun).
Defined.

(** ** The dataset store *)

Section StoreFacts.
Context {V : Type}.

(** C7. Against the store as the specification describes it: an append
    that fails leaves the store as it was, so row count and end
    timestamp of the dataset are those of before the call; an append
    that succeeds leaves a committed dataset whose matrix has the new
    rows and whose descriptor has the new row count and end timestamp.
    No other dataset changes. *)
Theorem append_atomic (file_path target_dataset_name : string)
    (data_to_write : list (list (option V))) (chunk : DatasetMetadata) (st : Store V) :
  md_n_rows chunk = length data_to_write ->
  (forall dataset,
     DatasetIO.read file_path target_dataset_name st = Some dataset ->
     DatasetIO.committed dataset) ->
  let '(st', r) :=
    DatasetIO.write_to_hdf5 file_path data_to_write chunk target_dataset_name st in
  (forall key, key <> (file_path, target_dataset_name) -> st' !! key = st !! key)
  /\ match r with
     | Raise e => e = IncompatibleAppendError /\ st' = st
     | Ok _ =>
         exists dataset',
           DatasetIO.read file_path target_dataset_name st' = Some dataset'
           /\ DatasetIO.committed dataset'
           /\ md_end (metadata dataset') = md_end chunk
           /\ match DatasetIO.read file_path target_dataset_name st with
              | None => matrix dataset' = data_to_write /\ metadata dataset' = chunk
              | Some dataset =>
                  matrix dataset' = matrix dataset ++ data_to_write
                  /\ md_n_rows (metadata dataset')
                     = (md_n_rows (metadata dataset) + md_n_rows chunk)%nat
              end
     end.
Proof.
  intros Hchunk Hinv. unfold DatasetIO.write_to_hdf5, DatasetIO.read in *.
  destruct (st !! (file_path, target_dataset_name)) as [dataset|] eqn:Hlookup.
  - destruct (DatasetIO.compatible (metadata dataset) chunk).
    + split; [intros key Hkey; now rewrite lookup_insert_ne|].
      eexists. rewrite lookup_insert_eq. split; [reflexivity|].
      unfold DatasetIO.committed. cbn. rewrite length_app.
      specialize (Hinv dataset eq_refl). unfold DatasetIO.committed in Hinv.
      repeat split. lia.
    + split; [reflexivity | split; reflexivity].
  - split; [intros key Hkey; now rewrite lookup_insert_ne|].
    eexists. rewrite lookup_insert_eq. split; [reflexivity|].
    unfold DatasetIO.committed. cbn. repeat split. assumption.
Qed.

End StoreFacts.

Lemma append_atomic_witness :
  DatasetIO.write_to_hdf5 "dataset.h5" [[Some 151; Some 99; Some 311]]
    three_symbol_metadata "bars" two_symbol_store
  = (two_symbol_store, Raise IncompatibleAppendError).
Proof.
  pose proof (append_atomic "dataset.h5" "bars" [[Some 151; Some 99; Some 311]]
                three_symbol_metadata two_symbol_store eq_refl) as H.
  assert (Hinv : forall dataset,
    DatasetIO.read "dataset.h5" "bars" two_symbol_store = Some dataset ->
    DatasetIO.committed dataset).
  { intros dataset Hread. vm_compute in Hread. injection Hread as <-. reflexivity. }
  specialize (H Hinv).
  destruct (DatasetIO.write_to_hdf5 "dataset.h5" [[Some 151; Some 99; Some 311]]
              three_symbol_metadata "bars" two_symbol_store) as [st' r] eqn:Hrun.
  assert (Hr : r = Raise IncompatibleAppendError).
  { apply (f_equal snd) in Hrun. vm_compute in Hrun. now subst r. }
  subst r. destruct H as [_ [_ ->]]. reflexivity.
Defined.

(** ** The density statistic *)

Lemma track_sessions_counts (sessions : list (N * N)) (tr : DataProcessor.DensityTracker) :
  DataProcessor.observed_cells (DataProcessor.track_sessions sessions tr)
    = (DataProcessor.observed_cells tr + sum_N (map fst sessions))%N
  /\ DataProcessor.total_cells (DataProcessor.track_sessions sessions tr)
    = (DataProcessor.total_cells tr + sum_N (map snd sessions))%N.
Proof.
  revert tr. induction sessions as [|[o t] l IH]; intros tr; simpl.
  - split; lia.
  - destruct (IH (DataProcessor.update_density o t tr)) as [-> ->]. simpl.
    split; lia.
Qed.

Lemma sum_N_le (sessions : list (N * N)) :
  Forall (fun counts => (fst counts <= snd counts)%N) sessions ->
  (sum_N (map fst sessions) <= sum_N (map snd sessions))%N.
Proof.
  induction 1 as [|[o t] l Hot _ IH]; simpl in *; lia.
Qed.

Lemma density_unit_interval (tr : DataProcessor.DensityTracker) :
  tracker_ok tr -> unit_interval (DataProcessor.running_dataset_density tr).
Proof.
  unfold tracker_ok, unit_interval, DataProcessor.running_dataset_density. intros Hok.
  destruct (N.eqb_spec (DataProcessor.total_cells tr) 0) as [Hz | Hnz].
  - split; [apply Qle_refl | discriminate].
  - assert (Hpos : (0 < inject_Z (Z.of_N (DataProcessor.total_cells tr)))%Q).
    { rewrite <- (Zlt_Qlt 0). lia. }
    split.
    + apply Qle_shift_div_l; [assumption|]. rewrite Qmult_0_l.
      rewrite <- (Zle_Qle 0). lia.
    + apply Qle_shift_div_r; [assumption|]. rewrite Qmult_1_l.
      rewrite <- Zle_Qle. lia.
Qed.

(** C8. Against the tracker as the specification describes it: after
    any sequence of sessions, each with no more observed cells than
    cells, the tracker holds the cumulative counts, the density is
    their quotient, and it lies in [[0,1]]. *)
Theorem running_density_cumulative (sessions : list (N * N)) :
  Forall (fun counts => (fst counts <= snd counts)%N) sessions ->
  let tr := DataProcessor.track_sessions sessions DataProcessor.initial_tracker in
  DataProcessor.observed_cells tr = sum_N (map fst sessions)
  /\ DataProcessor.total_cells tr = sum_N (map snd sessions)
  /\ (sum_N (map snd sessions) <> 0%N ->
      DataProcessor.running_dataset_density tr
      = (inject_Z (Z.of_N (sum_N (map fst sessions)))
         / inject_Z (Z.of_N (sum_N (map snd sessions))))%Q)
  /\ (0 <= DataProcessor.running_dataset_density tr
      /\ DataProcessor.running_dataset_density tr <= 1)%Q.
Proof.
  intros Hle tr.
  destruct (track_sessions_counts sessions DataProcessor.initial_tracker) as [Ho Ht].
  fold tr in Ho, Ht. cbn [DataProcessor.initial_tracker DataProcessor.observed_cells
    DataProcessor.total_cells] in Ho, Ht. rewrite N.add_0_l in Ho, Ht.
  split; [assumption|]. split; [assumption|]. split.
  - intros Hnz. unfold DataProcessor.running_dataset_density.
    rewrite Ho, Ht.
    destruct (N.eqb_spec (sum_N (map snd sessions)) 0) as [Hz | _];
      [contradiction | reflexivity].
  - apply density_unit_interval. unfold tracker_ok. rewrite Ho, Ht.
    now apply sum_N_le.
Qed.

Lemma running_density_cumulative_witness :
  let tr := DataProcessor.track_sessions [(5, 8); (3, 4)]%N DataProcessor.initial_tracker in
  DataProcessor.running_dataset_density tr = (inject_Z 8 / inject_Z 12)%Q
  /\ (DataProcessor.running_dataset_density tr <= 1)%Q.
Proof.
  assert (Hle : Forall (fun counts : N * N => (fst counts <= snd counts)%N)
                  [(5, 8); (3, 4)]%N).
  { repeat constructor; simpl; lia. }
  pose proof (running_density_cumulative [(5, 8); (3, 4)]%N Hle) as (_ & _ & Hq & _ & H1).
  split; [apply Hq; discriminate | exact H1].
Defined.

(** The density differs from the average of the per-session ratios: a
    session fully observed and a session of three cells, none observed,
    give a density of 1/4 and an average of 1/2. *)
Lemma density_not_average_of_averages :
  let sessions := [(1, 1); (0, 3)]%N in
  (DataProcessor.running_dataset_density
     (DataProcessor.track_sessions sessions DataProcessor.initial_tracker) == 1 # 4)%Q
  /\ (DataProcessor.average_of_averages sessions == 1 # 2)%Q.
Proof. split; reflexivity. Qed.

(** ** The density statistic along the pipeline *)

Section PipelineDensity.
Context {V : Type}.

Lemma count_observed_le (processed : list (option (list V))) :
  (DataProcessor.count_observed processed <= length processed)%nat.
Proof.
  unfold DataProcessor.count_observed.
  induction processed as [|r l IH]; simpl; [lia|].
  destruct (bool_decide (is_Some r)); simpl; lia.
Qed.

Lemma reindex_and_forward_fill_tracker_ok (width : nat) (data : list (SymbolRow V))
    (open close : Z) (resolution : string) (tr : DataProcessor.DensityTracker) :
  tracker_ok tr ->
  tracker_ok (fst (DataProcessor.reindex_and_forward_fill width data open close
                     resolution tr)).
Proof.
  unfold tracker_ok, DataProcessor.reindex_and_forward_fill. cbn. intros Hok.
  pose proof (count_observed_le
    (DataProcessor.reindex data
       (DataProcessor.session_grid open close
          (DataProcessor.resolution_seconds resolution)))) as Hle.
  apply N.add_le_mono; [assumption|]. nia.
Qed.

Lemma process_groups_tracker_ok (width : nat)
    (groups : list (string * list (SymbolRow V))) (market_open market_close : Z)
    (resolution : string) (tr : DataProcessor.DensityTracker) :
  tracker_ok tr ->
  tracker_ok (fst (AlpacaDataFetcher.process_groups width groups market_open
                     market_close resolution tr)).
Proof.
  revert tr. induction groups as [|[symbol group] rest IH]; intros tr Hok; simpl;
    [assumption|].
  pose proof (reindex_and_forward_fill_tracker_ok width group market_open market_close
                resolution tr Hok) as Hok1.
  unfold DataProcessor.reindex_and_forward_fill in Hok1. cbn [fst] in Hok1.
  specialize (IH _ Hok1).
  destruct (AlpacaDataFetcher.process_groups width rest market_open market_close
              resolution _) as [tr2 processed_groups].
  exact IH.
Qed.

Lemma process_session_tracker_ok (env : Env V) (file_path target_dataset_name : string)
    (dataset_type : DatasetType) (symbols : list string) (asset_class : AssetClass)
    (resolution : string) (session : Z * Z) (st : State V) :
  tracker_ok (tracker st) ->
  tracker_ok (tracker (fst (AlpacaDataFetcher.process_session env file_path
                              target_dataset_name dataset_type symbols asset_class
                              resolution session st))).
Proof.
  intros Hok. destruct session as [market_open market_close].
  unfold AlpacaDataFetcher.process_session, AlpacaDataFetcher.download_raw_dataset,
    bind, lift, record_fetch.
  destruct (to_timeframe env resolution) as [timeframe|]; cbn [ret raise fst tracker];
    [|assumption].
  destruct (AlpacaDataFetcher.get_downloader_and_request _ _ _)
    as [[downloader request]|]; cbn [ret raise fst tracker];
    [|assumption].
  destruct (provider env _) as [raw_dataset|]; cbn [ret raise fst tracker];
    [|assumption].
  unfold AlpacaDataFetcher.align_session.
  case_bool_decide; cbn [raise fst tracker]; [|assumption].
  unfold with_tracker. cbn [tracker].
  pose proof (process_groups_tracker_ok (length (df_columns raw_dataset))
                (groupby_symbol (reindex_to_symbols raw_dataset symbols))
                market_open market_close resolution (tracker st) Hok) as Hok1.
  destruct (AlpacaDataFetcher.process_groups _ _ _ _ _ _) as [tr processed].
  unfold with_store. cbn [store tracker].
  destruct (DatasetIO.write_to_hdf5 _ _ _ _ _) as [s [[]|e]]; exact Hok1.
Qed.

Lemma process_schedule_tracker_ok (env : Env V) (file_path target_dataset_name : string)
    (dataset_type : DatasetType) (symbols : list string) (asset_class : AssetClass)
    (resolution : string) (schedule : list (Z * Z)) (st : State V) :
  tracker_ok (tracker st) ->
  tracker_ok (tracker (fst (AlpacaDataFetcher.process_schedule env file_path
                              target_dataset_name dataset_type symbols asset_class
                              resolution schedule st))).
Proof.
  revert st. induction schedule as [|session rest IH]; intros st Hok; simpl;
    [assumption|].
  unfold bind at 1.
  pose proof (process_session_tracker_ok env file_path target_dataset_name dataset_type
                symbols asset_class resolution session st Hok) as Hok1.
  destruct (AlpacaDataFetcher.process_session _ _ _ _ _ _ _ _ _) as [st1 [[]|e1]].
  - apply IH. exact Hok1.
  - exact Hok1.
Qed.

Lemma process_session_progress (env : Env V) (file_path target_dataset_name : string)
    (dataset_type : DatasetType) (symbols : list string) (asset_class : AssetClass)
    (resolution : string) (session : Z * Z) (st : State V) :
  tracker_ok (tracker st) -> Forall unit_interval (progress st) ->
  Forall unit_interval
    (progress (fst (AlpacaDataFetcher.process_session env file_path target_dataset_name
                      dataset_type symbols asset_class resolution session st))).
Proof.
  intros Hok Hshown. destruct session as [market_open market_close].
  unfold AlpacaDataFetcher.process_session, AlpacaDataFetcher.download_raw_dataset,
    bind, lift, record_fetch.
  destruct (to_timeframe env resolution) as [timeframe|]; cbn [ret raise fst progress];
    [|assumption].
  destruct (AlpacaDataFetcher.get_downloader_and_request _ _ _)
    as [[downloader request]|]; cbn [ret raise fst progress];
    [|assumption].
  destruct (provider env _) as [raw_dataset|]; cbn [ret raise fst progress];
    [|assumption].
  unfold AlpacaDataFetcher.align_session.
  case_bool_decide; cbn [raise fst progress]; [|assumption].
  unfold with_tracker. cbn [tracker].
  pose proof (process_groups_tracker_ok (length (df_columns raw_dataset))
                (groupby_symbol (reindex_to_symbols raw_dataset symbols))
                market_open market_close resolution (tracker st) Hok) as Hok1.
  destruct (AlpacaDataFetcher.process_groups _ _ _ _ _ _) as [tr processed].
  unfold with_store, set_description. cbn [store tracker progress].
  destruct (DatasetIO.write_to_hdf5 _ _ _ _ _) as [s [[]|e]];
    cbn [fst progress tracker]; [|assumption].
  apply Forall_app. split; [assumption|].
  constructor; [|constructor]. now apply density_unit_interval.
Qed.

Lemma process_schedule_progress (env : Env V) (file_path target_dataset_name : string)
    (dataset_type : DatasetType) (symbols : list string) (asset_class : AssetClass)
    (resolution : string) (schedule : list (Z * Z)) (st : State V) :
  tracker_ok (tracker st) -> Forall unit_interval (progress st) ->
  Forall unit_interval
    (progress (fst (AlpacaDataFetcher.process_schedule env file_path target_dataset_name
                      dataset_type symbols asset_class resolution schedule st))).
Proof.
  revert st. induction schedule as [|session rest IH]; intros st Hok Hshown; simpl;
    [assumption|].
  unfold bind at 1.
  pose proof (process_session_tracker_ok env file_path target_dataset_name dataset_type
                symbols asset_class resolution session st Hok) as Hok1.
  pose proof (process_session_progress env file_path target_dataset_name dataset_type
                symbols asset_class resolution session st Hok Hshown) as Hshown1.
  destruct (AlpacaDataFetcher.process_session _ _ _ _ _ _ _ _ _) as [st1 [[]|e1]].
  - apply IH; assumption.
  - exact Hshown1.
Qed.

(** Whatever the run does, every density it shows after a session, and
    the density it leaves, lie in [[0,1]]. *)
Lemma pipeline_density_unit_interval (env : Env V)
    (file_path target_dataset_name : string) (dataset_type : DatasetType)
    (symbols : list string) (resolution : string) (start_date end_date : Z)
    (st : State V) :
  tracker_ok (tracker st) -> Forall unit_interval (progress st) ->
  let st' :=
    fst (AlpacaDataFetcher.download_features_to_hdf5 env file_path target_dataset_name
           dataset_type symbols resolution start_date end_date st) in
  Forall unit_interval (progress st')
  /\ unit_interval (DataProcessor.running_dataset_density (tracker st')).
Proof.
  intros Hok Hshown st'.
  enough (H : tracker_ok (tracker st') /\ Forall unit_interval (progress st')).
  { destruct H as [H1 H2]. split; [assumption | now apply density_unit_interval]. }
  subst st'. unfold AlpacaDataFetcher.download_features_to_hdf5.
  destruct (validate_path env file_path); cbn [negb raise fst]; [|now split].
  destruct (AlpacaDataFetcher._validate_symbols (client env) symbols)
    as [warnings [asset_class|e1]]; unfold bind at 1, log_warnings; cbn [raise fst];
    [|now split].
  destruct (AlpacaDataFetcher._validate_resolution resolution) as [[]|e2];
    cbn [raise fst]; [|now split].
  destruct (length (get_schedule env asset_class start_date end_date) =? 0)%nat;
    cbn [raise fst]; [now split|].
  unfold bind.
  match goal with
  | |- context [AlpacaDataFetcher.process_schedule ?e ?f ?n ?d ?s ?a ?r ?sch ?st0] =>
      pose proof (process_schedule_tracker_ok e f n d s a r sch st0 Hok) as Hok1;
      pose proof (process_schedule_progress e f n d s a r sch st0 Hok Hshown) as Hshown1;
      destruct (AlpacaDataFetcher.process_schedule e f n d s a r sch st0)
        as [st1 [[]|e3]]
  end; now split.
Qed.

End PipelineDensity.

(** ** The blocks of an aligned session, in terms of the provider's rows *)

Section BlockValues.
Context {V : Type}.

Lemma levels_1_elem (raw_dataset : RawDataset V) (t : Z) :
  t ∈ levels_1 raw_dataset <-> t ∈ map rec_time (df_rows raw_dataset).
Proof. unfold levels_1. now rewrite sort_by_elem, elem_of_remove_dups. Qed.

Lemma loc_outside_levels (raw_dataset : RawDataset V) (symbol : string) (t : Z) :
  t ∉ levels_1 raw_dataset -> loc raw_dataset symbol t = None.
Proof.
  intros Hnot. unfold loc.
  destruct (List.find _ (df_rows raw_dataset)) as [r|] eqn:Hfind; [|reflexivity].
  exfalso. apply Hnot. apply levels_1_elem.
  apply find_some in Hfind as [Hin Hr].
  apply andb_true_iff in Hr as [_ Ht]. apply bool_decide_eq_true in Ht. subst t.
  apply list_elem_of_In. now apply in_map.
Qed.

Lemma find_symbol_block (raw_dataset : RawDataset V) (symbol : string) (t : Z)
    (levels : list Z) :
  List.find (fun r : SymbolRow V => bool_decide (row_time r = t))
    (map (fun t' => {| row_symbol := symbol; row_time := t';
                       row_values := loc raw_dataset symbol t' |}) levels)
  = if decide (t ∈ levels)
    then Some {| row_symbol := symbol; row_time := t;
                 row_values := loc raw_dataset symbol t |}
    else None.
Proof.
  induction levels as [|t' levels IH]; simpl.
  - destruct (decide (t ∈ [])) as [Hin|]; [inversion Hin | reflexivity].
  - case_bool_decide as Heq.
    + subst t'. rewrite decide_True by left. reflexivity.
    + rewrite IH. destruct (decide (t ∈ levels)) as [Hin | Hnot].
      * rewrite decide_True by now right. reflexivity.
      * rewrite decide_False; [reflexivity|].
        intros Hc. apply elem_of_cons in Hc as [-> | Hc]; [now apply Heq | now apply Hnot].
Qed.

Lemma filter_symbol_block (raw_dataset : RawDataset V) (key symbol : string)
    (levels : list Z) :
  List.filter (fun r : SymbolRow V => bool_decide (row_symbol r = key))
    (map (fun t' => {| row_symbol := symbol; row_time := t';
                       row_values := loc raw_dataset symbol t' |}) levels)
  = if decide (symbol = key)
    then map (fun t' => {| row_symbol := symbol; row_time := t';
                           row_values := loc raw_dataset symbol t' |}) levels
    else [].
Proof.
  induction levels as [|t' levels IH]; simpl.
  - now destruct (decide (symbol = key)).
  - rewrite IH. destruct (decide (symbol = key)) as [Heq | Hne].
    + now rewrite bool_decide_eq_true_2.
    + now rewrite bool_decide_eq_false_2.
Qed.

Lemma find_app {A : Type} (f : A -> bool) (l1 l2 : list A) :
  List.find f (l1 ++ l2)
  = match List.find f l1 with Some x => Some x | None => List.find f l2 end.
Proof.
  induction l1 as [|x l1 IH]; simpl; [reflexivity|]. now destruct (f x).
Qed.

(** The observation of a symbol's group at a timestamp is the
    provider's row of the symbol at that timestamp. *)
Lemma observation_group (raw_dataset : RawDataset V) (symbols : list string)
    (key : string) (t : Z) :
  key ∈ symbols ->
  DataProcessor.observation
    (List.filter (fun r : SymbolRow V => bool_decide (row_symbol r = key))
       (reindex_to_symbols raw_dataset symbols)) t
  = loc raw_dataset key t.
Proof.
  unfold reindex_to_symbols, DataProcessor.observation.
  induction symbols as [|symbol rest IH]; intros Hin; [inversion Hin|].
  simpl. rewrite List.filter_app, filter_symbol_block, find_app.
  destruct (decide (symbol = key)) as [-> | Hne].
  - rewrite find_symbol_block.
    destruct (decide (t ∈ levels_1 raw_dataset)) as [Ht | Ht]; [reflexivity|].
    rewrite (loc_outside_levels _ _ _ Ht).
    destruct (List.find _ _) as [r|] eqn:Hfind; [|reflexivity].
    apply find_some in Hfind as [Hr Htime].
    apply filter_In in Hr as [Hr _]. apply in_flat_map in Hr as (s & _ & Hr).
    apply in_map_iff in Hr as (t' & <- & Ht'). simpl in *.
    apply bool_decide_eq_true in Htime. subst t'.
    exfalso. apply Ht. now apply list_elem_of_In.
  - simpl. apply IH. apply elem_of_cons in Hin as [-> | Hin]; [congruence | assumption].
Qed.

Lemma process_groups_blocks (width : nat) (groups : list (string * list (SymbolRow V)))
    (market_open market_close : Z) (resolution : string)
    (tr : DataProcessor.DensityTracker) :
  snd (AlpacaDataFetcher.process_groups width groups market_open market_close
         resolution tr)
  = map (fun g =>
           (fst g,
            DataProcessor.ffill
              (DataProcessor.reindex (snd g)
                 (DataProcessor.session_grid market_open market_close
                    (DataProcessor.resolution_seconds resolution)))))
      groups.
Proof.
  revert tr. induction groups as [|[symbol group] rest IH]; intros tr; simpl;
    [reflexivity|].
  specialize (IH (DataProcessor.update_density
    (N.of_nat (DataProcessor.count_observed
       (DataProcessor.reindex group
          (DataProcessor.session_grid market_open market_close
             (DataProcessor.resolution_seconds resolution))) * width))
    (N.of_nat (length
       (DataProcessor.reindex group
          (DataProcessor.session_grid market_open market_close
             (DataProcessor.resolution_seconds resolution))) * width)) tr)).
  destruct (AlpacaDataFetcher.process_groups width rest market_open market_close
              resolution _) as [tr2 processed_groups].
  simpl in *. now rewrite IH.
Qed.

(** Every block of an aligned session belongs to a requested symbol and
    is the forward fill, along the session grid, of the rows the
    provider returned for that symbol. *)
Lemma align_session_block_values (symbols : list string) (raw_dataset : RawDataset V)
    (market_open market_close : Z) (resolution : string) (st st' : State V)
    (blocks : list (string * list (option (list V)))) (key : string)
    (block : list (option (list V))) :
  AlpacaDataFetcher.align_session symbols raw_dataset market_open market_close
    resolution st = (st', Ok blocks) ->
  (key, block) ∈ blocks ->
  key ∈ symbols
  /\ block
     = DataProcessor.ffill
         (map (loc raw_dataset key)
            (DataProcessor.session_grid market_open market_close
               (DataProcessor.resolution_seconds resolution))).
Proof.
  intros Hrun Hin. apply align_session_Ok in Hrun as [_ ->].
  rewrite process_groups_blocks in Hin. unfold groupby_symbol in Hin.
  rewrite map_map in Hin. simpl in Hin.
  apply list_elem_of_In, in_map_iff in Hin as (k & [= <- <-] & Hk).
  apply list_elem_of_In in Hk.
  rewrite sort_by_elem, elem_of_remove_dups in Hk.
  assert (Hsym : k ∈ symbols).
  { apply list_elem_of_In, in_map_iff in Hk as (r & <- & Hr).
    unfold reindex_to_symbols in Hr. apply in_flat_map in Hr as (s & Hs & Hr).
    apply in_map_iff in Hr as (t' & <- & _). simpl. now apply list_elem_of_In. }
  split; [assumption|]. f_equal. unfold DataProcessor.reindex.
  apply map_ext. intros t. now apply observation_group.
Qed.

End BlockValues.

(** ** The store along the pipeline *)

Section PipelineStore.
Context {V : Type}.

Lemma write_to_hdf5_store_committed (file_path target_dataset_name : string)
    (data_to_write : list (list (option V))) (chunk : DatasetMetadata) (st : Store V) :
  md_n_rows chunk = length data_to_write -> store_committed st ->
  store_committed
    (fst (DatasetIO.write_to_hdf5 file_path data_to_write chunk target_dataset_name st)).
Proof.
  intros Hchunk Hinv. unfold DatasetIO.write_to_hdf5.
  destruct (st !! (file_path, target_dataset_name)) as [dataset|] eqn:Hlookup.
  - destruct (DatasetIO.compatible (metadata dataset) chunk); cbn [fst];
      [|assumption].
    intros key dataset'. rewrite lookup_insert. case_decide.
    + intros [= <-]. unfold DatasetIO.committed. cbn. rewrite length_app.
      pose proof (Hinv _ _ Hlookup) as Hd. unfold DatasetIO.committed in Hd. lia.
    + apply Hinv.
  - cbn [fst]. intros key dataset'. rewrite lookup_insert. case_decide.
    + intros [= <-]. exact Hchunk.
    + apply Hinv.
Qed.

Lemma process_session_store_committed (env : Env V)
    (file_path target_dataset_name : string) (dataset_type : DatasetType)
    (symbols : list string) (asset_class : AssetClass) (resolution : string)
    (session : Z * Z) (st : State V) :
  store_committed (store st) ->
  store_committed
    (store (fst (AlpacaDataFetcher.process_session env file_path target_dataset_name
                   dataset_type symbols asset_class resolution session st))).
Proof.
  intros Hinv. destruct session as [market_open market_close].
  unfold AlpacaDataFetcher.process_session, AlpacaDataFetcher.download_raw_dataset,
    bind, lift, record_fetch.
  destruct (to_timeframe env resolution) as [timeframe|]; cbn [ret raise fst store];
    [|assumption].
  destruct (AlpacaDataFetcher.get_downloader_and_request _ _ _)
    as [[downloader request]|]; cbn [ret raise fst store];
    [|assumption].
  destruct (provider env _) as [raw_dataset|]; cbn [ret raise fst store];
    [|assumption].
  unfold AlpacaDataFetcher.align_session.
  case_bool_decide; cbn [raise fst store]; [|assumption].
  unfold with_tracker.
  destruct (AlpacaDataFetcher.process_groups _ _ _ _ _ _) as [tr processed].
  unfold with_store, set_description. cbn [store].
  match goal with
  | |- context [DatasetIO.write_to_hdf5 ?f ?d ?c ?n ?s0] =>
      pose proof (write_to_hdf5_store_committed f n d c s0 eq_refl Hinv) as Hinv1;
      destruct (DatasetIO.write_to_hdf5 f d c n s0) as [s1 [[]|e]]
  end; exact Hinv1.
Qed.

Lemma process_schedule_store_committed (env : Env V)
    (file_path target_dataset_name : string) (dataset_type : DatasetType)
    (symbols : list string) (asset_class : AssetClass) (resolution : string)
    (schedule : list (Z * Z)) (st : State V) :
  store_committed (store st) ->
  store_committed
    (store (fst (AlpacaDataFetcher.process_schedule env file_path target_dataset_name
                   dataset_type symbols asset_class resolution schedule st))).
Proof.
  revert st. induction schedule as [|session rest IH]; intros st Hinv; simpl;
    [assumption|].
  unfold bind at 1.
  pose proof (process_session_store_committed env file_path target_dataset_name
                dataset_type symbols asset_class resolution session st Hinv) as Hinv1.
  destruct (AlpacaDataFetcher.process_session _ _ _ _ _ _ _ _ _) as [st1 [[]|e1]].
  - now apply IH.
  - exact Hinv1.
Qed.

(** Whatever the run does, and wherever it stops, every dataset of the
    store it leaves is whole. *)
Lemma pipeline_store_committed (env : Env V)
    (file_path target_dataset_name : string) (dataset_type : DatasetType)
    (symbols : list string) (resolution : string) (start_date end_date : Z)
    (st : State V) :
  store_committed (store st) ->
  store_committed
    (store (fst (AlpacaDataFetcher.download_features_to_hdf5 env file_path
                   target_dataset_name dataset_type symbols resolution start_date
                   end_date st))).
Proof.
  intros Hinv. unfold AlpacaDataFetcher.download_features_to_hdf5.
  destruct (validate_path env file_path); cbn [negb raise fst]; [|assumption].
  destruct (AlpacaDataFetcher._validate_symbols (client env) symbols)
    as [warnings [asset_class|e1]]; unfold bind at 1, log_warnings; cbn [raise fst];
    [|assumption].
  destruct (AlpacaDataFetcher._validate_resolution resolution) as [[]|e2];
    cbn [raise fst]; [|assumption].
  destruct (length (get_schedule env asset_class start_date end_date) =? 0)%nat;
    cbn [raise fst]; [assumption|].
  unfold bind.
  match goal with
  | |- context [AlpacaDataFetcher.process_schedule ?e ?f ?n ?d ?s ?a ?r ?sch ?st0] =>
      pose proof (process_schedule_store_committed e f n d s a r sch st0 Hinv) as Hinv1;
      destruct (AlpacaDataFetcher.process_schedule e f n d s a r sch st0)
        as [st1 [[]|e3]]
  end; exact Hinv1.
Qed.

End PipelineStore.

(** * Further properties *)

(** ** The validators *)

Lemma filter_nil_all_false {A : Type} (f : A -> bool) (l : list A) :
  List.filter f l = [] -> forall x, In x l -> f x = false.
Proof.
  induction l as [|y l IH]; simpl; [intros _ x []|].
  destruct (f y) eqn:E; [discriminate|].
  intros Hnil x [<- | Hx]; [assumption | now apply IH].
Qed.

Lemma duplicate_symbols_nil_NoDup (symbols : list string) :
  duplicate_symbols symbols = [] -> NoDup symbols.
Proof.
  intros Hnil. apply NoDup_ListNoDup.
  apply (proj2 (NoDup_count_occ string_dec symbols)). intros x.
  destruct (in_dec string_dec x symbols) as [Hin | Hnot].
  - assert (Hx : In x (remove_dups symbols)).
    { apply list_elem_of_In, elem_of_remove_dups, list_elem_of_In, Hin. }
    pose proof (filter_nil_all_false _ _ Hnil x Hx) as Hf.
    apply Nat.ltb_ge in Hf. exact Hf.
  - apply (proj1 (count_occ_not_In string_dec symbols x)) in Hnot. lia.
Qed.

Lemma duplicate_symbols_elem (symbols : list string) (s : string) :
  s ∈ duplicate_symbols symbols <-> (1 < count symbols s)%nat.
Proof.
  unfold duplicate_symbols. rewrite list_elem_of_In, filter_In, Nat.ltb_lt.
  rewrite <- list_elem_of_In, elem_of_remove_dups. split; [tauto|].
  intros Hc. split; [|assumption]. apply list_elem_of_In.
  apply (count_occ_In string_dec). unfold count in Hc. lia.
Qed.

Lemma duplicate_symbols_distinct (symbols : list string) :
  NoDup (duplicate_symbols symbols).
Proof.
  apply NoDup_ListNoDup, List.NoDup_filter, NoDup_ListNoDup, NoDup_remove_dups.
Qed.

Section ValidatorsOnClients.

Context {Account DataFrame : Type}.
Variable objects_to_df : list SdkAsset -> DataFrame.
Variable remote : Py.outcome (list SdkAsset).

(** X1. A list with a repeated symbol is refused by both validators with
    the duplicate-symbol error, whatever the client holds and before
    anything is read of it; the error names every symbol that occurs
    more than once, each once. *)
Theorem repeated_symbol_rejected (client : Client.t) (self : AlpacaClient.t Account)
    (symbols : list string) :
  ~ NoDup symbols ->
  AlpacaDataFetcher._validate_symbols client symbols
    = ([], Raise (DuplicateSymbolError (duplicate_symbols symbols)))
  /\ AlpacaDataClient._validate_symbols objects_to_df remote self symbols
    = (self, [], ([], Raise (DuplicateSymbolError (duplicate_symbols symbols))))
  /\ duplicate_symbols symbols <> []
  /\ NoDup (duplicate_symbols symbols)
  /\ (forall s, s ∈ duplicate_symbols symbols <-> (1 < count symbols s)%nat).
Proof.
  intros Hdup.
  assert (Hne : duplicate_symbols symbols <> [])
    by (intros Hnil; now apply Hdup, duplicate_symbols_nil_NoDup).
  destruct symbols as [|s l]; [exfalso; apply Hdup; constructor|].
  unfold AlpacaDataFetcher._validate_symbols, AlpacaDataClient._validate_symbols.
  cbn [length Nat.eqb].
  destruct (duplicate_symbols (s :: l)) as [|x xs] eqn:Hx; [congruence|].
  split; [reflexivity|]. split; [reflexivity|]. split; [discriminate|].
  rewrite <- Hx. split; [apply duplicate_symbols_distinct | apply duplicate_symbols_elem].
Qed.

(** X2. On an instance of the repository's [AlpacaClient], in any state
    and whatever the trading API answers, neither validator returns an
    asset class: every call ends in an exception. *)
Theorem validators_return_no_asset_class (self : AlpacaClient.t Account)
    (symbols : list string) (c : AssetClass) :
  snd (AlpacaDataFetcher._validate_symbols (AlpacaClient.as_client self) symbols)
  <> Ok c
  /\ snd (snd (AlpacaDataClient._validate_symbols objects_to_df remote self symbols))
     <> Ok c.
Proof.
  split.
  - now rewrite fetcher_validate_AlpacaClient.
  - unfold AlpacaDataClient._validate_symbols.
    destruct symbols as [|s l]; [discriminate|]. cbn [length Nat.eqb].
    destruct (duplicate_symbols (s :: l)); [|discriminate].
    destruct (AlpacaDataClient.check_symbols objects_to_df remote self (s :: l))
      as [[self1 calls] [ws [[]|e]]]; cbn [snd]; [|discriminate].
    cbn [AlpacaClient.as_client Client._AlpacaClient__symbols].
    now rewrite (common_asset_class_raises_first _ s l _ (private_get_Absent s)).
Qed.

Lemma check_symbols_subscript_prefix (d : gmap string SdkAsset)
    (pre rest : list string) :
  Forall (valid_symbol (catalog_of d)) pre ->
  check_symbols (subscript_symbols d) (pre ++ rest)
  = (warnings_of (catalog_of d) pre ++ fst (check_symbols (subscript_symbols d) rest),
     snd (check_symbols (subscript_symbols d) rest)).
Proof.
  induction 1 as [|s l (a & Ha & Ht & Hs) _ IH];
    [unfold warnings_of; cbn [app flat_map]; now destruct (check_symbols _ rest)|].
  unfold catalog_of in Ha. rewrite lookup_fmap in Ha.
  destruct (d !! s) as [asset|] eqn:Hds; [|discriminate]. injection Ha as <-.
  cbn [app check_symbols].
  replace (subscript_symbols d s) with (Ok (Some (asset_info asset)))
    by (unfold subscript_symbols; now rewrite Hds).
  rewrite Ht, bool_decide_eq_true_2 by exact Hs. cbn [negb]. rewrite IH.
  unfold warnings_of. cbn [flat_map].
  replace (catalog_of d !! s) with (Some (asset_info asset))
    by (unfold catalog_of; now rewrite lookup_fmap, Hds).
  now rewrite app_assoc.
Qed.

(** X4. The data client's validator on an instance of [AlpacaClient]
    whose property [symbols] returns a dictionary: the trading API is
    asked as for one read of the property, and the first symbol in
    list order that the dictionary does not hold, or holds as not
    tradable or not active, decides the outcome: the [KeyError] of the
    subscript for a symbol that is not listed, the not-tradable error
    before the inactive error. The warnings logged are those of the
    symbols before it. *)
Theorem client_validator_first_offender (self self1 : AlpacaClient.t Account)
    (calls : list ApiCall) (d : gmap string SdkAsset) (pre post : list string)
    (s : string) :
  NoDup (pre ++ s :: post) ->
  AlpacaClient.symbols objects_to_df remote self = (self1, calls, Py.Return d) ->
  Forall (valid_symbol (catalog_of d)) pre ->
  let outcome e :=
    (self1, calls, (warnings_of (catalog_of d) pre, @Raise AssetClass e)) in
  let validated :=
    AlpacaDataClient._validate_symbols objects_to_df remote self (pre ++ s :: post) in
  (d !! s = None -> validated = outcome (PyError (Py.KeyError s)))
  /\ (forall asset, d !! s = Some asset -> tradable (asset_info asset) = false ->
        validated = outcome (NotTradableError s))
  /\ (forall asset, d !! s = Some asset -> tradable (asset_info asset) = true ->
        status (asset_info asset) <> ACTIVE ->
        validated = outcome (InactiveSymbolError s)).
Proof.
  intros Hnd Hd Hpre outcome validated.
  assert (Hne : pre ++ s :: post <> []) by now destruct pre.
  assert (Hrun : forall e,
            check_symbols (subscript_symbols d) (s :: post) = ([], Raise e) ->
            validated = outcome e).
  { intros e He. subst validated outcome. unfold AlpacaDataClient._validate_symbols.
    destruct (pre ++ s :: post) as [|x l] eqn:Hl; [congruence|]. cbn [length Nat.eqb].
    rewrite (duplicate_symbols_NoDup _ Hnd).
    rewrite (client_check_symbols _ _ _ _ _ _ _ Hne Hd), <- Hl.
    rewrite (check_symbols_subscript_prefix _ _ _ Hpre), He. cbn [fst snd].
    now rewrite app_nil_r. }
  split; [|split].
  - intros Hs. apply Hrun. cbn [check_symbols]. unfold subscript_symbols.
    now rewrite Hs.
  - intros asset Hs Ht. apply Hrun. cbn [check_symbols]. unfold subscript_symbols.
    now rewrite Hs, Ht.
  - intros asset Hs Ht Hst. apply Hrun. cbn [check_symbols]. unfold subscript_symbols.
    rewrite Hs, Ht. cbn [negb]. now rewrite bool_decide_eq_false_2.
Qed.

End ValidatorsOnClients.

Lemma repeated_symbol_rejected_witness :
  snd (AlpacaDataFetcher._validate_symbols (AlpacaClient.as_client connected_client)
         ["ZZZ"; "AAPL"; "ZZZ"; "AAPL"; "MSFT"])
    = Raise (DuplicateSymbolError
               (duplicate_symbols ["ZZZ"; "AAPL"; "ZZZ"; "AAPL"; "MSFT"]))
  /\ "MSFT" ∉ duplicate_symbols ["ZZZ"; "AAPL"; "ZZZ"; "AAPL"; "MSFT"].
Proof.
  assert (Hdup : ~ NoDup ["ZZZ"; "AAPL"; "ZZZ"; "AAPL"; "MSFT"]) by decide_by_compute.
  pose proof (repeated_symbol_rejected (fun fetched => fetched)
                (Py.Return sample_listing) (AlpacaClient.as_client connected_client)
                connected_client _ Hdup) as (Hrun & _ & _ & _ & Helem).
  split; [now rewrite Hrun|]. rewrite Helem. vm_compute. lia.
Defined.

Lemma client_validator_first_offender_witness :
  snd (AlpacaDataClient._validate_symbols (fun fetched => fetched)
         (Py.Return sample_listing) connected_client ["BTC/USD"; "LEHM"; "ZZZ"])
  = ([NotEasyToBorrow "BTC/USD"], Raise (NotTradableError "LEHM")).
Proof.
  destruct (client_validator_first_offender (fun fetched => fetched)
              (Py.Return sample_listing) connected_client _ _ _ ["BTC/USD"] ["ZZZ"]
              "LEHM" ltac:(decide_by_compute) eq_refl
              ltac:(repeat constructor; eexists;
                    (split; [vm_compute; reflexivity | split; reflexivity])))
    as (_ & Hnt & _).
  cbv zeta in Hnt.
  change ["BTC/USD"; "LEHM"; "ZZZ"] with (["BTC/USD"] ++ "LEHM" :: ["ZZZ"]).
  erewrite Hnt; [reflexivity | vm_compute; reflexivity
                                                         | reflexivity].
Defined.

(** ** The session loop *)

Section LoopFacts.
Context {V : Type}.





(** X9. A frame without rows fails the check for missing symbols with
    every requested symbol reported missing. *)
Theorem empty_frame_misses_every_symbol (symbols : list string)
    (raw_dataset : RawDataset V) (market_open market_close : Z) (resolution : string)
    (st : State V) :
  df_rows raw_dataset = [] -> symbols <> [] ->
  AlpacaDataFetcher.align_session symbols raw_dataset market_open market_close
    resolution st
  = (st, Raise (MissingSymbolDataError (list_to_set symbols) market_open market_close)).
Proof.
  intros Hrows Hne.
  assert (Hm : missing_symbols raw_dataset symbols = list_to_set symbols).
  { unfold missing_symbols, symmetric_difference, dataset_symbols. rewrite Hrows.
    simpl. apply set_eq. intros x. rewrite elem_of_union, !elem_of_difference.
    split.
    - intros [[Hx _] | [Hx _]]; [now apply not_elem_of_empty in Hx | exact Hx].
    - intros Hx. right. split; [exact Hx | apply not_elem_of_empty]. }
  rewrite <- Hm. apply align_session_raises. rewrite Hm.
  destruct symbols as [|s l]; [congruence|]. intros Hempty.
  assert (Hs : s ∈ (list_to_set (s :: l) : gset string))
    by (apply elem_of_list_to_set; left).
  rewrite Hempty in Hs. now apply not_elem_of_empty in Hs.
Qed.

End LoopFacts.



Lemma empty_frame_misses_every_symbol_witness :
  snd (AlpacaDataFetcher.align_session ["MSFT"; "AAPL"]
         {| df_columns := ["close"]; df_rows := @nil (RawRecord Z) |} 0 1200 "5Min"
         Sample.empty_state)
  = Raise (MissingSymbolDataError {["MSFT"; "AAPL"]} 0 1200).
Proof.
  rewrite (empty_frame_misses_every_symbol ["MSFT"; "AAPL"]
             {| df_columns := ["close"]; df_rows := @nil (RawRecord Z) |} 0 1200 "5Min"
             Sample.empty_state eq_refl ltac:(discriminate)).
  vm_compute. reflexivity.
Defined.

(** ** Requests in ascending order *)

Lemma sort_by_sorted {A : Type} (leb : A -> A -> bool) (l : list A) :
  Sorted (fun u v => leb u v = true) l -> sort_by leb l = l.
Proof.
  induction 1 as [|x l Hs IH Hhd]; simpl; [reflexivity|].
  fold (sort_by leb l). rewrite IH.
  destruct Hhd as [|y l' Hxy]; simpl; [reflexivity|]. now rewrite Hxy.
Qed.

Lemma remove_dups_repeat_app {A : Type} `{EqDecision A} (x : A) (n : nat) (R : list A) :
  (0 < n)%nat -> x ∉ R -> remove_dups (repeat x n ++ R) = x :: remove_dups R.
Proof.
  intros Hn Hx. induction n as [|m IH]; [lia|].
  simpl. destruct m as [|m].
  - simpl. destruct (decide_rel elem_of x R); [contradiction | reflexivity].
  - destruct (decide_rel elem_of x (repeat x (S m) ++ R)) as [_ | Hnot].
    + apply IH. lia.
    + exfalso. apply Hnot. simpl. left.
Qed.

Lemma remove_dups_repeated {A : Type} `{EqDecision A} (n : nat) (l : list A) :
  (0 < n)%nat -> NoDup l -> remove_dups (flat_map (fun x => repeat x n) l) = l.
Proof.
  intros Hn. induction 1 as [|x l Hx Hnd IH]; simpl; [reflexivity|].
  rewrite remove_dups_repeat_app, IH; [reflexivity | assumption |].
  intros Hin. apply Hx. apply list_elem_of_In, in_flat_map in Hin as (y & Hy & Hrep).
  apply repeat_spec in Hrep. subst. now apply list_elem_of_In.
Qed.

Section AscendingRequest.
Context {V : Type}.

Lemma reindex_to_symbols_column (raw_dataset : RawDataset V) (symbols : list string) :
  map row_symbol (reindex_to_symbols raw_dataset symbols)
  = flat_map (fun symbol => repeat symbol (length (levels_1 raw_dataset))) symbols.
Proof.
  unfold reindex_to_symbols.
  induction symbols as [|s l IH]; simpl; [reflexivity|].
  rewrite map_app, IH. f_equal. rewrite map_map. simpl.
  generalize (levels_1 raw_dataset) as ts. clear IH.
  induction ts as [|t ts IHt]; simpl; [reflexivity | now f_equal].
Qed.

Lemma levels_1_nonempty (raw_dataset : RawDataset V) (s : string) :
  has_records raw_dataset s -> (0 < length (levels_1 raw_dataset))%nat.
Proof.
  unfold has_records. intros Hs.
  apply list_elem_of_In, in_map_iff in Hs as (r & _ & Hr).
  assert (Ht : rec_time r ∈ levels_1 raw_dataset).
  { apply levels_1_elem, list_elem_of_In. now apply in_map. }
  destruct (levels_1 raw_dataset); [inversion Ht | simpl; lia].
Qed.

(** X10. When the requested symbols are distinct and in ascending order, the
    blocks of an aligned session come in the order of the request. *)
Theorem ascending_request_keeps_order (symbols : list string)
    (raw_dataset : RawDataset V) (market_open market_close : Z) (resolution : string)
    (st st' : State V) (blocks : list (string * list (option (list V)))) :
  NoDup symbols ->
  Sorted (fun s1 s2 => String.leb s1 s2 = true) symbols ->
  AlpacaDataFetcher.align_session symbols raw_dataset market_open market_close
    resolution st = (st', Ok blocks) ->
  map fst blocks = symbols.
Proof.
  intros Hnd Hsorted Hrun. apply align_session_Ok in Hrun as [Hmissing ->].
  rewrite process_groups_keys. unfold groupby_symbol.
  rewrite map_map. simpl. rewrite map_id, reindex_to_symbols_column.
  destruct symbols as [|s l]; [reflexivity|].
  rewrite remove_dups_repeated; [now apply sort_by_sorted | | assumption].
  apply (levels_1_nonempty raw_dataset s).
  destruct (decide (s ∈ map rec_symbol (df_rows raw_dataset))) as [|Hnot];
    [assumption|].
  assert (Hin : s ∈ missing_symbols raw_dataset (s :: l)).
  { apply missing_symbols_elem. right. split; [left | assumption]. }
  rewrite Hmissing in Hin. now apply not_elem_of_empty in Hin.
Qed.

End AscendingRequest.

Lemma ascending_request_keeps_order_witness :
  exists st blocks,
    AlpacaDataFetcher.align_session ["AAPL"; "MSFT"] Sample.sample_frame 0 1200 "5Min"
      Sample.empty_state = (st, Ok blocks)
    /\ map fst blocks = ["AAPL"; "MSFT"].
Proof.
  eexists _, _. split; [vm_compute; reflexivity|].
  eapply (ascending_request_keeps_order ["AAPL"; "MSFT"] Sample.sample_frame 0 1200
            "5Min" Sample.empty_state).
  - decide_by_compute.
  - repeat constructor.
  - vm_compute. reflexivity.
Defined.

(** ** The downloaders *)

(** X11. With both data clients present, the data fetcher finds for every
    dataset type and asset class a request class of that type and
    venue, and returns it with the method of the matching data client
    that takes it; it fails only when that client lacks the method. *)
Theorem fetcher_downloader_matches_request (clients : gmap string SdkClient)
    (stocks crypto : SdkClient) (dataset_type : DatasetType) (asset_class : AssetClass) :
  clients !! "stocks" = Some stocks -> clients !! "crypto" = Some crypto ->
  let client := match asset_class with US_EQUITY => stocks | CRYPTO => crypto end in
  exists request,
    request_kind request = dataset_type /\ request_venue request = asset_class
    /\ AlpacaDataFetcher.get_downloader_and_request (Some clients) dataset_type
         asset_class
       = Py.bind (safe_method_call client (request_method request))
           (fun downloader => Py.Return (downloader, request)).
Proof.
  intros Hs Hc client. unfold AlpacaDataFetcher.get_downloader_and_request.
  unfold Py.subscript, Py.getitem at 1 2. rewrite Hs, Hc. cbn [id Py.bind].
  destruct dataset_type, asset_class;
    [exists StockBarsRequest | exists CryptoBarsRequest
     | exists StockQuotesRequest | exists CryptoQuotesRequest
     | exists StockTradesRequest | exists CryptoTradesRequest];
    (split; [reflexivity|]); (split; [reflexivity|]); reflexivity.
Qed.

Lemma fetcher_downloader_matches_request_witness :
  AlpacaDataFetcher.get_downloader_and_request (Some sample_clients) BAR CRYPTO
  = Py.Return ((sample_crypto, "get_crypto_bars"), CryptoBarsRequest)
  /\ AlpacaDataFetcher.get_downloader_and_request (Some sample_clients) QUOTE CRYPTO
     = Py.Raised (Py.AttributeError "Client does not have method 'get_crypto_quotes'").
Proof.
  split.
  - destruct (fetcher_downloader_matches_request sample_clients sample_stocks
                sample_crypto BAR CRYPTO eq_refl eq_refl) as (request & Hk & Hv & ->).
    destruct request; try discriminate. vm_compute. reflexivity.
  - destruct (fetcher_downloader_matches_request sample_clients sample_stocks
                sample_crypto QUOTE CRYPTO eq_refl eq_refl) as (request & Hk & Hv & ->).
    destruct request; try discriminate. vm_compute. reflexivity.
Defined.

(** X12. With both data clients present, the data client has no downloader
    for bars: its table names the key [TRADE] twice, so a request for
    [BAR] fails with a [KeyError], and what it returns for [TRADE] is
    the trades request, never a bars request. *)
Theorem client_downloader_has_no_bars (clients : gmap string SdkClient)
    (stocks crypto : SdkClient) (asset_class : AssetClass) :
  clients !! "stocks" = Some stocks -> clients !! "crypto" = Some crypto ->
  AlpacaDataClient.get_downloader_and_request (Some clients) BAR asset_class
    = Py.Raised (Py.KeyError "DatasetType.BAR")
  /\ (forall dataset_type downloader request,
        AlpacaDataClient.get_downloader_and_request (Some clients) dataset_type
          asset_class = Py.Return (downloader, request) ->
        request_kind request = dataset_type /\ dataset_type <> BAR
        /\ request_venue request = asset_class
        /\ snd downloader = request_method request).
Proof.
  intros Hs Hc.
  set (client := match asset_class with US_EQUITY => stocks | CRYPTO => crypto end).
  assert (Htable : forall dataset_type,
    AlpacaDataClient.get_downloader_and_request (Some clients) dataset_type asset_class
    = match dataset_type, asset_class with
      | BAR, _ => Py.Raised (Py.KeyError "DatasetType.BAR")
      | QUOTE, US_EQUITY =>
          Py.bind (safe_method_call client "get_stock_quotes")
            (fun d => Py.Return (d, StockQuotesRequest))
      | QUOTE, CRYPTO =>
          Py.bind (safe_method_call client "get_crypto_quotes")
            (fun d => Py.Return (d, CryptoQuotesRequest))
      | TRADE, US_EQUITY =>
          Py.bind (safe_method_call client "get_stock_trades")
            (fun d => Py.Return (d, StockTradesRequest))
      | TRADE, CRYPTO =>
          Py.bind (safe_method_call client "get_crypto_trades")
            (fun d => Py.Return (d, CryptoTradesRequest))
      end).
  { intros dataset_type. unfold AlpacaDataClient.get_downloader_and_request.
    unfold Py.subscript, Py.getitem at 1 2. rewrite Hs, Hc. cbn [id Py.bind].
    subst client. destruct dataset_type, asset_class; reflexivity. }
  split; [rewrite Htable; now destruct asset_class|].
  intros dataset_type downloader request. rewrite Htable.
  unfold safe_method_call.
  destruct dataset_type, asset_class; try discriminate;
    case_bool_decide; cbn [Py.bind]; try discriminate;
    intros [= <- <-]; repeat split; discriminate.
Qed.

Lemma client_downloader_has_no_bars_witness :
  AlpacaDataClient.get_downloader_and_request (Some sample_clients) BAR US_EQUITY
    = Py.Raised (Py.KeyError "DatasetType.BAR")
  /\ AlpacaDataClient.get_downloader_and_request (Some sample_clients) TRADE US_EQUITY
     = Py.Return ((sample_stocks, "get_stock_trades"), StockTradesRequest).
Proof.
  split.
  - exact (proj1 (client_downloader_has_no_bars sample_clients sample_stocks
                    sample_crypto US_EQUITY eq_refl eq_refl)).
  - vm_compute. reflexivity.
Defined.

Lemma getitem_absent {K A : Type} `{Countable K} (show : K -> string) (d : gmap K A)
    (k : K) :
  d !! k = None -> Py.getitem show d k = Py.Raised (Py.KeyError (show k)).
Proof. intros Hk. unfold Py.getitem. now rewrite Hk. Qed.

Lemma getitem_present {K A : Type} `{Countable K} (show : K -> string) (d : gmap K A)
    (k : K) (v : A) :
  d !! k = Some v -> Py.getitem show d k = Py.Return v.
Proof. intros Hk. unfold Py.getitem. now rewrite Hk. Qed.

(** X13. Both lookups of a downloader need both data clients, whatever the
    asset class asked for: without a connection they fail with a
    [TypeError], and without the stocks or the crypto client with the
    [KeyError] of that client, also for an asset class of the other
    venue. *)
Theorem downloader_needs_both_clients (dataset_type : DatasetType)
    (asset_class : AssetClass) :
  (AlpacaDataFetcher.get_downloader_and_request None dataset_type asset_class
     = Py.Raised (Py.TypeError "'NoneType' object is not subscriptable")
   /\ AlpacaDataClient.get_downloader_and_request None dataset_type asset_class
     = Py.Raised (Py.TypeError "'NoneType' object is not subscriptable"))
  /\ (forall clients : gmap string SdkClient,
        clients !! "stocks" = None ->
        AlpacaDataFetcher.get_downloader_and_request (Some clients) dataset_type
          asset_class = Py.Raised (Py.KeyError "stocks")
        /\ AlpacaDataClient.get_downloader_and_request (Some clients) dataset_type
             asset_class = Py.Raised (Py.KeyError "stocks"))
  /\ (forall clients : gmap string SdkClient,
        is_Some (clients !! "stocks") -> clients !! "crypto" = None ->
        AlpacaDataFetcher.get_downloader_and_request (Some clients) dataset_type
          asset_class = Py.Raised (Py.KeyError "crypto")
        /\ AlpacaDataClient.get_downloader_and_request (Some clients) dataset_type
             asset_class = Py.Raised (Py.KeyError "crypto")).
Proof.
  split; [split; reflexivity|]. split.
  - intros clients Hs.
    unfold AlpacaDataFetcher.get_downloader_and_request,
      AlpacaDataClient.get_downloader_and_request, Py.subscript.
    rewrite (getitem_absent id clients "stocks" Hs). split; reflexivity.
  - intros clients [stocks Hs] Hc.
    unfold AlpacaDataFetcher.get_downloader_and_request,
      AlpacaDataClient.get_downloader_and_request, Py.subscript.
    rewrite (getitem_present id clients "stocks" stocks Hs),
      (getitem_absent id clients "crypto" Hc). split; reflexivity.
Qed.

(** ** The client's caches *)

Section ClientFacts.
Context {Account DataFrame : Type}.
Variable objects_to_df : list SdkAsset -> DataFrame.

Lemma symbol_dict_lookup_from (fetched : list SdkAsset) (d0 : gmap string SdkAsset)
    (s : string) :
  fold_left (fun d asset => <[asset_symbol asset := asset]> d) fetched d0 !! s
  = match last (List.filter (fun a => bool_decide (asset_symbol a = s)) fetched) with
    | Some a => Some a
    | None => d0 !! s
    end.
Proof.
  revert d0. induction fetched as [|a l IH]; intros d0; simpl; [reflexivity|].
  rewrite IH. case_bool_decide as Ha.
  - rewrite last_cons.
    destruct (last (List.filter _ l)); [reflexivity|].
    subst s. now rewrite lookup_insert_eq.
  - destruct (last (List.filter _ l)); [reflexivity|].
    now rewrite lookup_insert_ne.
Qed.

(** The dictionary of symbols holds, for every symbol, the last asset
    listed with that symbol, and nothing for other symbols. *)
Lemma symbol_dict_lookup (fetched : list SdkAsset) (s : string) :
  AlpacaClient.symbol_dict fetched !! s
  = last (List.filter (fun a => bool_decide (asset_symbol a = s)) fetched).
Proof.
  unfold AlpacaClient.symbol_dict. rewrite symbol_dict_lookup_from.
  now destruct (last _).
Qed.

(** X14. On a connected client that has fetched nothing, [symbols] asks the
    trading API once for the assets and returns the dictionary that
    maps every listed symbol to the last asset listed with it; a symbol
    is absent exactly when no listed asset has it. *)
Theorem symbols_of_connected_client (fetched : list SdkAsset)
    (self : AlpacaClient.t Account) (cs : gmap string SdkClient) :
  AlpacaClient.clients self = Some cs -> is_Some (cs !! "trading") ->
  AlpacaClient._assets self = None -> AlpacaClient._symbols self = None ->
  exists self1 d,
    AlpacaClient.symbols objects_to_df (Py.Return fetched) self
      = (self1, [GetAllAssets], Py.Return d)
    /\ AlpacaClient._assets self1 = Some fetched
    /\ AlpacaClient._symbols self1 = Some d
    /\ (forall s, d !! s
          = last (List.filter (fun a => bool_decide (asset_symbol a = s)) fetched))
    /\ (forall s, d !! s = None <-> s ∉ map asset_symbol fetched).
Proof.
  intros Hcs [tc Htc] Ha Hsym.
  unfold AlpacaClient.symbols, AlpacaClient.assets. rewrite Ha, Hcs.
  unfold Py.subscript, Py.getitem. rewrite Htc. cbn.
  rewrite Hsym. eexists _, _. split; [reflexivity|].
  split; [reflexivity|]. split; [reflexivity|].
  split; [apply symbol_dict_lookup|].
  intros s. rewrite symbol_dict_lookup. rewrite last_None. split.
  - intros Hnil Hin. apply list_elem_of_In, in_map_iff in Hin as (a & Has & Hin).
    assert (Hf : In a (List.filter (fun a => bool_decide (asset_symbol a = s)) fetched)).
    { apply filter_In. split; [assumption | now apply bool_decide_eq_true]. }
    rewrite Hnil in Hf. destruct Hf.
  - intros Hnot.
    destruct (List.filter _ fetched) as [|a l] eqn:E; [reflexivity|].
    exfalso. apply Hnot.
    assert (Hf : In a (List.filter (fun a => bool_decide (asset_symbol a = s)) fetched))
      by (rewrite E; now left).
    apply filter_In in Hf as [Hin Hs]. apply bool_decide_eq_true in Hs. subst s.
    apply list_elem_of_In. now apply in_map.
Qed.

(** X15. Once [symbols] has returned, every later call returns the same
    dictionary without a call to the trading API and without a change
    of the client, whatever the API would answer by then. *)
Theorem symbols_cached (remote remote' : Py.outcome (list SdkAsset))
    (self self1 : AlpacaClient.t Account) (calls : list ApiCall)
    (d : gmap string SdkAsset) :
  AlpacaClient.symbols objects_to_df remote self = (self1, calls, Py.Return d) ->
  AlpacaClient.symbols objects_to_df remote' self1 = (self1, [], Py.Return d).
Proof.
  intros Hrun.
  assert (Hstate : is_Some (AlpacaClient._assets self1)
                   /\ AlpacaClient._symbols self1 = Some d).
  { revert Hrun. unfold AlpacaClient.symbols, AlpacaClient.assets.
    destruct (AlpacaClient._assets self) as [cached|] eqn:Ha.
    - rewrite Ha. destruct (AlpacaClient._symbols self) as [d0|] eqn:Hs.
      + intros [= <- _ <-]. rewrite Ha. eauto.
      + intros [= <- _ <-]. cbn. eauto.
    - destruct (Py.subscript (AlpacaClient.clients self) "trading"); [|discriminate].
      destruct remote as [fetched|e]; [|discriminate]. cbn.
      destruct (AlpacaClient._symbols self) as [d0|] eqn:Hs.
      + intros [= <- _ <-]. cbn. eauto.
      + intros [= <- _ <-]. cbn. eauto. }
  destruct Hstate as [[cached Ha] Hs].
  unfold AlpacaClient.symbols. now rewrite Ha, Hs.
Qed.

(** X16. Before [_connect], [symbols] fails with a [TypeError] and asks
    nothing of the API; after a [_connect] with key and secret it
    returns the dictionary of the listed assets, also when the account
    could not be fetched. *)
Theorem symbols_after_connect (sdk : AlpacaClient.Sdk Account)
    (API_KEY API_SECRET : option string) (k s : string) (fetched : list SdkAsset) :
  let self0 := AlpacaClient.__init__ API_KEY API_SECRET (Some k) (Some s) in
  AlpacaClient.symbols objects_to_df (Py.Return fetched) self0
    = (self0, [], Py.Raised (Py.TypeError "'NoneType' object is not subscriptable"))
  /\ exists self1 calls log self2,
       AlpacaClient._connect sdk self0 = (self1, calls, log, Py.Return tt)
       /\ AlpacaClient.symbols objects_to_df (Py.Return fetched) self1
          = (self2, [GetAllAssets], Py.Return (AlpacaClient.symbol_dict fetched)).
Proof.
  intros self0. split; [reflexivity|].
  unfold AlpacaClient._connect. subst self0. cbn [AlpacaClient.__init__
    AlpacaClient.key AlpacaClient.secret].
  destruct (AlpacaClient.get_account sdk) as [a|e].
  - destruct (AlpacaClient.check_connection sdk _) as [[|]|e];
      eexists _, _, _, _; (split; [reflexivity|]); reflexivity.
  - eexists _, _, _, _. split; reflexivity.
Qed.

(** X17. [_connect] raises exactly when key or secret is missing, and then
    changes nothing and calls nothing; otherwise it returns, whatever
    the API raises, with the three SDK clients in place, and it holds
    the account exactly when the API returned one. *)
Theorem connect_outcome (sdk : AlpacaClient.Sdk Account) (self : AlpacaClient.t Account) :
  let '(self1, calls, log, r) := AlpacaClient._connect sdk self in
  (r = Py.Return tt
   <-> is_Some (AlpacaClient.key self) /\ is_Some (AlpacaClient.secret self))
  /\ (r <> Py.Return tt -> self1 = self /\ calls = [] /\ log = [])
  /\ (r = Py.Return tt ->
      calls = [GetAccount]
      /\ (exists cs, AlpacaClient.clients self1 = Some cs
            /\ dom cs = {["crypto"; "stocks"; "trading"]})
      /\ (forall a, AlpacaClient.get_account sdk = Py.Return a ->
            AlpacaClient.account self1 = Some a)
      /\ (forall e, AlpacaClient.get_account sdk = Py.Raised e ->
            AlpacaClient.account self1 = AlpacaClient.account self
            /\ log = [AccountSetupFailed e])).
Proof.
  unfold AlpacaClient._connect.
  destruct (AlpacaClient.key self) as [k|] eqn:Hk;
    [destruct (AlpacaClient.secret self) as [s|] eqn:Hs|].
  - assert (Hdom : dom (<["trading" := AlpacaClient.TradingClient sdk k s]>
                          (<["stocks" := AlpacaClient.StockHistoricalDataClient sdk k s]>
                             (<["crypto" := AlpacaClient.CryptoHistoricalDataClient sdk k s]>
                                (∅ : gmap string SdkClient))))
                   = {["crypto"; "stocks"; "trading"]}).
    { rewrite !dom_insert_L, dom_empty_L. apply set_eq. intros x.
      rewrite !elem_of_union, !elem_of_singleton, elem_of_empty. tauto. }
    destruct (AlpacaClient.get_account sdk) as [a|e].
    + destruct (AlpacaClient.check_connection sdk _) as [[|]|e];
        (split; [split; [eauto | reflexivity]|]);
        (split; [congruence|]); intros _;
        (split; [reflexivity|]); (split; [eexists; split; [reflexivity | exact Hdom]|]);
        (split; [now intros a' [= <-] | discriminate]).
    + split; [split; [eauto | reflexivity]|]. split; [congruence|]. intros _.
      split; [reflexivity|]. split; [eexists; split; [reflexivity | exact Hdom]|].
      split; [discriminate | now intros e' [= <-]].
  - split; [split; [discriminate | intros [_ [? [=]]]]|].
    split; [auto | discriminate].
  - split; [split; [discriminate | intros [[? [=]] _]]|].
    split; [auto | discriminate].
Qed.

End ClientFacts.

Lemma symbols_of_connected_client_witness :
  exists self1 d,
    AlpacaClient.symbols (fun fetched => fetched) (Py.Return sample_assets)
      connected_client = (self1, [GetAllAssets], Py.Return d)
    /\ d !! "AAPL"
       = Some {| asset_symbol := "AAPL"; asset_info := Sample.equity true ACTIVE |}
    /\ d !! "GOOG" = None.
Proof.
  destruct (symbols_of_connected_client (fun fetched => fetched) sample_assets
              connected_client _ eq_refl ltac:(eexists; reflexivity) eq_refl eq_refl)
    as (self1 & d & Hrun & _ & _ & Hd & _).
  exists self1, d. split; [exact Hrun|]. rewrite !Hd. split; reflexivity.
Defined.

Lemma symbols_cached_witness :
  let first :=
    AlpacaClient.symbols (fun fetched => fetched) (Py.Return sample_assets)
      connected_client in
  AlpacaClient.symbols (fun fetched => fetched) (Py.Return []) (fst (fst first))
  = (fst (fst first), [], Py.Return (AlpacaClient.symbol_dict sample_assets)).
Proof.
  intros first.
  apply (symbols_cached (fun fetched => fetched) (Py.Return sample_assets)
           (Py.Return []) connected_client (fst (fst first)) [GetAllAssets]).
  reflexivity.
Defined.

(** ** The pipes *)

Section PipeFacts.

Variable construct : string -> list Pipes.argument -> Pipes.env -> Py.outcome Pipes.env.

Lemma bind_never_returns_eq {A B : Type} (m : Py.outcome A) (k : A -> Py.outcome B) :
  (forall a, m = Py.Return a -> exists x, k a = Py.Raised x) ->
  exists x, Py.bind m k = Py.Raised x.
Proof.
  intros Hk. destruct m as [a|x]; cbn [Py.bind]; [now apply Hk | now exists x].
Qed.

Lemma bind_Return_eq {A B : Type} (m : Py.outcome A) (k : A -> Py.outcome B) (a : A) :
  m = Py.Return a -> Py.bind m k = k a.
Proof. now intros ->. Qed.

Lemma getattr_lookup (class : string) (self : Pipes.instance) (name : string)
    (v : Pipes.value) :
  self !! name = Some v -> Pipes.getattr class self name = Py.Return v.
Proof. intros Hv. unfold Pipes.getattr. now rewrite Hv. Qed.

Lemma ActionPipe_pipe_unfolded (min_trade integer : Pipes.value) (e : Pipes.env) :
  Pipes.ActionPipe_pipe construct (Pipes.ActionPipe__init__ min_trade integer) e
  = let? e := construct "MinTradeSizeActionWrapper"
                [(Some "min_trade", Pipes.VClass "MinTradeSizeActionWrapper")] e in
    let? e := construct "IntegerAssetQuantityActionWrapper"
                [(Some "integer", integer)] e in
    let? e := construct "PositionCloseActionWrapper" [] e in
    construct "ShortingActionWrapper" [] e.
Proof.
  unfold Pipes.ActionPipe_pipe.
  repeat match goal with
    | |- context [Pipes.getattr ?c ?s ?n] =>
        erewrite (getattr_lookup c s n) by reflexivity
    end.
  reflexivity.
Qed.

(** X18. The minimum trade size given to [ActionPipe] has no effect:
    [__init__] overwrites [self.min_trade] with the wrapper class, so
    [pipe] hands the wrapper class itself to the wrapper as its
    [min_trade], and two pipes that differ only in [min_trade] treat
    every environment alike. *)
Theorem action_pipe_ignores_min_trade (min_trade min_trade' integer : Pipes.value)
    (e : Pipes.env) :
  Pipes.ActionPipe_pipe construct (Pipes.ActionPipe__init__ min_trade integer) e
  = Pipes.ActionPipe_pipe construct (Pipes.ActionPipe__init__ min_trade' integer) e
  /\ Pipes.getattr "ActionPipe" (Pipes.ActionPipe__init__ min_trade integer) "min_trade"
     = Py.Return (Pipes.VClass "MinTradeSizeActionWrapper").
Proof.
  split; [now rewrite !ActionPipe_pipe_unfolded | reflexivity].
Qed.

(** What [HeadActionPipe.pipe] does on a pipe that [__init__] has
    built. *)
Lemma HeadActionPipe_pipe_outcome (uniform fixed discrete : bool)
    (trade_equity_ratio hold_threshold : Q) (clip : bool) (low high : Q)
    (self : Pipes.instance) (e : Pipes.env) :
  Pipes.HeadActionPipe__init__ uniform fixed discrete trade_equity_ratio
    hold_threshold clip low high = Py.Return self ->
  Pipes.HeadActionPipe_pipe construct self e
  = if fixed && uniform then
      match construct "EquityBasedFixedUniformActionParser"
              [(None, Pipes.VNumber trade_equity_ratio);
               (None, Pipes.VNumber hold_threshold)] e with
      | Py.Return _ =>
          Py.Raised (Py.AttributeError
                       "'HeadActionPipe' object has no attribute 'discete'")
      | Py.Raised x => Py.Raised x
      end
    else Py.Raised (Py.TypeError "'NoneType' object is not callable").
Proof.
  unfold Pipes.HeadActionPipe__init__.
  destruct (uniform && discrete); [discriminate|]. intros [= <-].
  destruct fixed, uniform; cbn [andb]; reflexivity.
Qed.

(** X19. [HeadActionPipe.pipe] returns no environment, whatever the
    arguments the pipe was built with and whatever the wrappers do: the
    parser is [None] unless the pipe is fixed and uniform, and after the
    one parser there is, [pipe] reads [self.discete], an attribute that
    [__init__] never sets. The exception is the [TypeError] of calling
    [None], the [AttributeError], or what the parser's constructor
    raised. *)
Theorem head_action_pipe_never_returns (uniform fixed discrete : bool)
    (trade_equity_ratio hold_threshold : Q) (clip : bool) (low high : Q)
    (self : Pipes.instance) (e : Pipes.env) :
  Pipes.HeadActionPipe__init__ uniform fixed discrete trade_equity_ratio
    hold_threshold clip low high = Py.Return self ->
  exists x,
    Pipes.HeadActionPipe_pipe construct self e = Py.Raised x
    /\ (x = Py.TypeError "'NoneType' object is not callable"
        \/ x = Py.AttributeError "'HeadActionPipe' object has no attribute 'discete'"
        \/ construct "EquityBasedFixedUniformActionParser"
             [(None, Pipes.VNumber trade_equity_ratio);
              (None, Pipes.VNumber hold_threshold)] e = Py.Raised x).
Proof.
  intros Hself. rewrite (HeadActionPipe_pipe_outcome _ _ _ _ _ _ _ _ _ e Hself).
  destruct (fixed && uniform); [|eauto].
  destruct (construct _ _ e) as [e'|x]; eauto.
Qed.

(** X20. [MarginAccountPipe.pipe] returns no environment, for every
    pipe that [__init__] builds and whatever the wrappers do: its last
    step is the [pipe] of a [HeadActionPipe] built with the defaults. *)
Theorem margin_account_pipe_never_returns (trade_equity_ratio
    excess_margin_ratio_threshold min_trade integer buffer_size stack_size
    track_statistics verbosity : Pipes.value) (e : Pipes.env) :
  exists x,
    Pipes.MarginAccountPipe_pipe construct
      (Pipes.MarginAccountPipe__init__ trade_equity_ratio
         excess_margin_ratio_threshold min_trade integer buffer_size stack_size
         track_statistics verbosity) e = Py.Raised x.
Proof.
  unfold Pipes.MarginAccountPipe_pipe.
  repeat (lazymatch goal with |- ex (fun x => Py.bind _ _ = _) => idtac end;
          apply bind_never_returns_eq; intros ? ?).
  match goal with
  | H : Pipes.HeadActionPipe__init__ _ _ _ _ _ _ _ _ = Py.Return ?head |- _ =>
      rewrite (HeadActionPipe_pipe_outcome _ _ _ _ _ _ _ _ _ _ H)
  end.
  cbn [andb]. destruct (construct _ _ _) as [e'|x]; eauto.
Qed.

(** X21. When every wrapper constructor returns, [MarginAccountPipe.pipe]
    applies all its wrappers and then fails with the [AttributeError]
    for [discete], raised by the head pipe. *)
Theorem margin_account_pipe_AttributeError (trade_equity_ratio
    excess_margin_ratio_threshold min_trade integer buffer_size stack_size
    track_statistics verbosity : Pipes.value) (e : Pipes.env) :
  (forall name arguments e0, exists e1, construct name arguments e0 = Py.Return e1) ->
  Pipes.MarginAccountPipe_pipe construct
    (Pipes.MarginAccountPipe__init__ trade_equity_ratio
       excess_margin_ratio_threshold min_trade integer buffer_size stack_size
       track_statistics verbosity) e
  = Py.Raised (Py.AttributeError "'HeadActionPipe' object has no attribute 'discete'").
Proof.
  intros Hc.
  unfold Pipes.MarginAccountPipe_pipe.
  repeat first
    [ progress cbn [Py.bind Pipes.call]
    | match goal with
      | |- context [Pipes.getattr ?c ?s ?n] =>
          erewrite (getattr_lookup c s n) by reflexivity
      end
    | match goal with
      | |- context [construct ?n ?a ?e0] =>
          let e1 := fresh "e" in
          destruct (Hc n a e0) as [e1 ->]
      end
    | progress unfold Pipes.RewardPipe_pipe, Pipes.ObservationPipe_pipe,
        Pipes.ActionPipe_pipe ].
  erewrite bind_Return_eq by reflexivity.
  rewrite (HeadActionPipe_pipe_outcome true true false _ _ false _ _ _ _ eq_refl).
  cbn [andb].
  match goal with
  | |- context [construct ?n ?a ?e0] => destruct (Hc n a e0) as [e' ->]
  end.
  reflexivity.
Qed.

End PipeFacts.

Lemma head_action_pipe_never_returns_witness :
  exists self x,
    Pipes.HeadActionPipe__init__ true true false (5 # 100) (15 # 100) false (-1) 1
    = Py.Return self
    /\ Pipes.HeadActionPipe_pipe wrap self (Pipes.Base "env") = Py.Raised x.
Proof.
  eexists.
  destruct (head_action_pipe_never_returns wrap true true false (5 # 100) (15 # 100)
              false (-1) 1 _ (Pipes.Base "env") eq_refl) as (x & Hx & _).
  exists x. split; [reflexivity | exact Hx].
Defined.

Lemma margin_account_pipe_AttributeError_witness :
  Pipes.MarginAccountPipe_pipe wrap
    (Pipes.MarginAccountPipe__init__ (Pipes.VNumber (2 # 100)) (Pipes.VNumber (1 # 10))
       (Pipes.VNumber 1) (Pipes.VBool false) (Pipes.VNumber 10) Pipes.VNone
       (Pipes.VBool true) (Pipes.VNumber 20))
    (Pipes.Base "env")
  = Py.Raised (Py.AttributeError "'HeadActionPipe' object has no attribute 'discete'").
Proof.
  apply (margin_account_pipe_AttributeError wrap).
  intros name arguments e0. exists (Pipes.Wrapped name arguments e0). reflexivity.
Defined.
